(** * wechat-voice: the voice store, the format check and the conversion queue

    A shallow embedding of [voice_manager.py] and
    [convert_plist_to_audio.py].

    - A Python [str] is a list of Unicode code points ([list N]); a Python
      [bytes] object is a [list byte].
    - [self.audio_data] (a dict from names to base64 text) is a [gmap].
    - The window object is a record; every slot of the window is a function
      from the record (and from what the user and the operating system
      answer during the call) to the new record. *)

From Stdlib Require Import NArith ZArith List Bool Lia.
From Stdlib Require Import Strings.String Strings.Ascii Strings.Byte.
From stdpp Require Import base option list gmap fin_maps.

Import ListNotations.
Local Open Scope N_scope.

(** ** Python values *)

(** A [str]: the sequence of its code points. *)
Abbreviation pystr := (list N).

(** A [bytes] object. *)
Abbreviation pybytes := (list byte).

(** A [str] literal, from its ASCII spelling. *)
Definition str (s : string) : pystr :=
  List.map N_of_ascii (list_ascii_of_string s).

(** [bool(x)] of a sequence: non-empty. *)
Definition truthy {A} (l : list A) : bool :=
  match l with [] => false | _ :: _ => true end.

(** [x in l] for a list of code points. *)
Definition mem_N (c : N) (l : list N) : bool := existsb (N.eqb c) l.

(** ** base64 (Python's [base64.b64encode] / [base64.b64decode])

    [b64encode] is [binascii.b2a_base64] without the trailing newline;
    [b64decode] (with [validate=False]) is [binascii.a2b_base64] in its
    lenient mode, after a [str] argument has been encoded as ASCII. *)
Module Base64.

Definition table_b2a_base64 : string :=
  "ABCDEFGHIJKLMNOPQRSTUVWXYZabcdefghijklmnopqrstuvwxyz0123456789+/".

(** [BASE64_PAD], the character [=]. *)
Definition BASE64_PAD : N := 61.

(** [table_b2a_base64[i]]. *)
Definition b2a (i : N) : N :=
  match String.get (N.to_nat i) table_b2a_base64 with
  | Some a => N_of_ascii a
  | None => 0
  end.

(** The position of the character in the alphabet (the C table
    [table_a2b_base64], whose entries outside the alphabet are 64:
    [None] here). *)
Fixpoint index_of (ch : N) (i : N) (l : list ascii) : option N :=
  match l with
  | [] => None
  | a :: l' => if N_of_ascii a =? ch then Some i else index_of ch (i + 1) l'
  end.

Definition a2b (ch : N) : option N :=
  index_of ch 0 (list_ascii_of_string table_b2a_base64).

(** Storing into an [unsigned char]. *)
Definition chr8 (n : N) : byte :=
  match Byte.of_N (N.land n 255) with
  | Some b => b
  | None => x00
  end.

Definition ord (b : byte) : N := Byte.to_N b.

(** [binascii.b2a_base64(data, newline=False)], three bytes at a time. *)
Fixpoint b2a_base64 (data : pybytes) : list N :=
  match data with
  | [] => []
  | [a] =>
      [ b2a (N.shiftr (ord a) 2);
        b2a (N.shiftl (N.land (ord a) 3) 4);
        BASE64_PAD; BASE64_PAD ]
  | [a; b] =>
      [ b2a (N.shiftr (ord a) 2);
        b2a (N.lor (N.shiftl (N.land (ord a) 3) 4) (N.shiftr (ord b) 4));
        b2a (N.shiftl (N.land (ord b) 15) 2);
        BASE64_PAD ]
  | a :: b :: c :: rest =>
      b2a (N.shiftr (ord a) 2)
      :: b2a (N.lor (N.shiftl (N.land (ord a) 3) 4) (N.shiftr (ord b) 4))
      :: b2a (N.lor (N.shiftl (N.land (ord b) 15) 2) (N.shiftr (ord c) 6))
      :: b2a (N.land (ord c) 63)
      :: b2a_base64 rest
  end.

(** [base64.b64encode(data).decode('utf-8')]: the output is ASCII, so the
    text has the same code points. *)
Definition b64encode (data : pybytes) : pystr := b2a_base64 data.

(** The loop of [binascii.a2b_base64] (not strict): [quad_pos] counts the
    sextets of the current quad, [leftchar] holds the bits not yet
    written, [pads] the padding characters seen since the last sextet.
    [None] is [binascii.Error]. *)
Fixpoint a2b_loop (quad_pos leftchar pads : N) (s : list N)
  : option pybytes :=
  match s with
  | [] => if quad_pos =? 0 then Some [] else None
  | this_ch :: rest =>
      if this_ch =? BASE64_PAD then
        if (2 <=? quad_pos) && (4 <=? quad_pos + (pads + 1))
        then Some []
        else a2b_loop quad_pos leftchar
               (if 2 <=? quad_pos then pads + 1 else pads) rest
      else
        match a2b this_ch with
        | None => a2b_loop quad_pos leftchar pads rest
        | Some v =>
            if quad_pos =? 0 then a2b_loop 1 v 0 rest
            else if quad_pos =? 1 then
              cons (chr8 (N.lor (N.shiftl leftchar 2) (N.shiftr v 4)))
                <$> a2b_loop 2 (N.land v 15) 0 rest
            else if quad_pos =? 2 then
              cons (chr8 (N.lor (N.shiftl leftchar 4) (N.shiftr v 2)))
                <$> a2b_loop 3 (N.land v 3) 0 rest
            else
              cons (chr8 (N.lor (N.shiftl leftchar 6) v))
                <$> a2b_loop 0 0 0 rest
        end
  end.

Definition a2b_base64 (s : list N) : option pybytes := a2b_loop 0 0 0 s.

(** [base64.b64decode(s)] for a [str]: a code point outside ASCII raises
    [ValueError]. *)
Definition b64decode (s : pystr) : option pybytes :=
  if forallb (fun c => c <? 128) s then a2b_base64 s else None.

End Base64.

(** ** The format check *)

(** [data.startswith(prefix)]. *)
Fixpoint startswith (prefix data : pybytes) : bool :=
  match prefix, data with
  | [], _ => true
  | _ :: _, [] => false
  | p :: prefix', d :: data' =>
      if Byte.eqb p d then startswith prefix' data' else false
  end.

(** [b'\x02#!SILK_V3'] *)
Definition SILK_MAGIC : pybytes :=
  [x02; x23; x21; x53; x49; x4c; x4b; x5f; x56; x33].

Inductive format := SpeechCodec | Opaque.

(** [audio_bytes.startswith(b'\x02#!SILK_V3')], as [play_audio],
    [_export_single], [export_all_audio] and [convert_plist_to_audio]
    test it. *)
Definition classify (audio_bytes : pybytes) : format :=
  if startswith SILK_MAGIC audio_bytes then SpeechCodec else Opaque.

(** ** Text helpers of Python's [str] *)

(** [c.isspace()], the characters that [str.strip()] removes. *)
Definition isspace (c : N) : bool :=
  ((9 <=? c) && (c <=? 13)) || ((28 <=? c) && (c <=? 32))
  || (c =? 133) || (c =? 160) || (c =? 5760)
  || ((8192 <=? c) && (c <=? 8202))
  || (c =? 8232) || (c =? 8233) || (c =? 8239) || (c =? 8287)
  || (c =? 12288).

Fixpoint lstrip (s : pystr) : pystr :=
  match s with
  | [] => []
  | c :: s' => if isspace c then lstrip s' else s
  end.

Definition rstrip (s : pystr) : pystr := rev (lstrip (rev s)).

(** [s.strip()] *)
Definition strip (s : pystr) : pystr := rstrip (lstrip s).

(** [s[:n]], with Python's reading of a negative bound. *)
Definition slice_to (n : Z) (s : pystr) : pystr :=
  if (0 <=? n)%Z then firstn (Z.to_nat n) s
  else firstn (length s - Z.to_nat (- n)) s.

(** ** [convert_plist_to_audio.sanitize_filename] *)

(** The character class of the pattern, as code points:
    less-than, greater-than, colon, double quote, slash, backslash, bar,
    question mark, star. *)
Definition illegal_chars : list N := [60; 62; 58; 34; 47; 92; 124; 63; 42].

(** [re.sub(pattern, '', name)]: every character of the class is dropped. *)
Definition remove_illegal (name : pystr) : pystr :=
  List.filter (fun c => negb (mem_N c illegal_chars)) name.

Definition sanitize_filename (name : pystr) (max_length : Z) : pystr :=
  let name := remove_illegal name in
  let name :=
    if (max_length <? Z.of_nat (length name))%Z
    then slice_to max_length name else name in
  if truthy (strip name) then strip name else str "unnamed".

(** The default of [max_length]. *)
Definition default_max_length : Z := 50.

(** ** Exceptions *)

Inductive exn :=
| PermissionError | FileNotFoundError | ValueError | UnicodeEncodeError
| InvalidFileException | ExpatError | KeyError | BinasciiError.

Inductive result (A : Type) :=
| Ok (a : A)
| Raise (e : exn).
Arguments Ok {A} a.
Arguments Raise {A} e.

(** ** [plistlib], at the level of the XML document

    A document is the sequence of its [<key>]/[<string>] pairs, each with
    the text the parser returns. The writer passes every text through
    [_escape]; its entity escaping ([&amp;], [&lt;], [&gt;]) is undone by
    the parser and is left out. The writer emits the pairs sorted by key;
    the reader rebuilds a dict, so the order is left as the map gives it. *)
Module plistlib.

(** What a file of the writer holds: the whole document with its pairs, or,
    when the writer raised on the way, a document that is cut off: the XML
    header, which is written before the first key, and what was written
    until the writer raised, with no closing tags. *)
Inductive document :=
| Complete (items : list (pystr * pystr))
| Truncated.

(** [_controlCharPat]: the C0 controls other than tab, LF and CR. *)
Definition control_char (c : N) : bool :=
  (c <? 32) && negb (c =? 9) && negb (c =? 10) && negb (c =? 13).

Definition surrogate (c : N) : bool := (55296 <=? c) && (c <=? 57343).

(** The [Char] production of XML 1.0: what expat accepts in text. *)
Definition xml_char (c : N) : bool :=
  (c =? 9) || (c =? 10) || (c =? 13)
  || ((32 <=? c) && (c <=? 55295))
  || ((57344 <=? c) && (c <=? 65533))
  || ((65536 <=? c) && (c <=? 1114111)).

(** [text.replace(CR LF, LF)] *)
Fixpoint replace_crlf (text : pystr) : pystr :=
  match text with
  | [] => []
  | c :: rest =>
      match rest with
      | d :: rest' =>
          if (c =? 13) && (d =? 10) then 10 :: replace_crlf rest'
          else c :: replace_crlf rest
      | [] => [c]
      end
  end.

(** [text.replace(CR, LF)] *)
Definition replace_cr (text : pystr) : pystr :=
  List.map (fun c => if c =? 13 then 10 else c) text.

(** [_escape(text)], and the UTF-8 encoding of the line that holds it. *)
Definition escape (text : pystr) : result pystr :=
  if existsb control_char text then Raise ValueError
  else if existsb surrogate text then Raise UnicodeEncodeError
  else Ok (replace_cr (replace_crlf text)).

Fixpoint write_items (items : list (pystr * pystr))
  : result (list (pystr * pystr)) :=
  match items with
  | [] => Ok []
  | (key, value) :: rest =>
      match escape key with
      | Raise e => Raise e
      | Ok k =>
          match escape value with
          | Raise e => Raise e
          | Ok v =>
              match write_items rest with
              | Raise e => Raise e
              | Ok doc => Ok ((k, v) :: doc)
              end
          end
      end
  end.

(** [plistlib.dump(value, fp)] for a dict from [str] to [str]. *)
Definition dump (value : gmap pystr pystr) : result document :=
  match write_items (map_to_list value) with
  | Ok items => Ok (Complete items)
  | Raise e => Raise e
  end.

Definition well_formed (items : list (pystr * pystr)) : bool :=
  forallb (fun kv => forallb xml_char (fst kv) && forallb xml_char (snd kv))
    items.

(** The parser: each pair is stored under its key, a later pair replacing
    an earlier one. *)
Definition build (items : list (pystr * pystr)) : gmap pystr pystr :=
  fold_left (fun d kv => <[fst kv := snd kv]> d) items ∅.

(** [plistlib.load(fp)]; [None] is a file that holds no property list (an
    empty file, other bytes). A document that is cut off, or that holds a
    character that is not legal in XML, makes the parser raise. *)
Definition load (contents : option document) : result (gmap pystr pystr) :=
  match contents with
  | None => Raise InvalidFileException
  | Some Truncated => Raise ExpatError
  | Some (Complete items) =>
      if well_formed items then Ok (build items) else Raise ExpatError
  end.

End plistlib.

(** ** The files the window reads and writes *)

Record file := {
  st_mode : Z;
  (** the property list the bytes spell (a dict from [str] to [str], which
      is what the program writes), or [None] when they spell none. *)
  contents : option plistlib.document;
}.

(** The file system as [save_plist] and [load_plist] see it. [refused]
    holds the paths the operating system does not let this process change
    (a locked file, a foreign owner, a directory that takes no new file). *)
Record world := {
  files : gmap pystr file;
  refused : pystr -> bool;
}.

Definition with_files (fs : gmap pystr file) (w : world) : world :=
  {| files := fs; refused := refused w |}.

(** [os.path.exists(path)] *)
Definition path_exists (w : world) (path : pystr) : bool :=
  bool_decide (is_Some (files w !! path)).

(** [os.chmod(path, mode)] *)
Definition chmod (w : world) (path : pystr) (mode : Z) : result world :=
  match files w !! path with
  | None => Raise FileNotFoundError
  | Some f =>
      if refused w path then Raise PermissionError
      else Ok (with_files
                 (<[path := {| st_mode := mode; contents := contents f |}]>
                    (files w)) w)
  end.

(** [open(path, 'wb')]: the file is created or truncated. *)
Definition open_wb (w : world) (path : pystr) : result world :=
  if refused w path then Raise PermissionError
  else
    match files w !! path with
    | Some f =>
        if (Z.land (st_mode f) 128 =? 0)%Z then Raise PermissionError
        else Ok (with_files
                   (<[path := {| st_mode := st_mode f; contents := None |}]>
                      (files w)) w)
    | None =>
        Ok (with_files
              (<[path := {| st_mode := 420; contents := None |}]> (files w)) w)
    end.

(** What is written to the file just opened, when the file is closed. *)
Definition write_all (w : world) (path : pystr) (doc : plistlib.document)
  : world :=
  match files w !! path with
  | Some f =>
      with_files
        (<[path := {| st_mode := st_mode f; contents := Some doc |}]>
           (files w)) w
  | None => w
  end.

(** [open(path, 'rb')] and reading it. *)
Definition open_rb (w : world) (path : pystr)
  : result (option plistlib.document) :=
  match files w !! path with
  | Some f => Ok (contents f)
  | None => Raise FileNotFoundError
  end.

(** ** The window *)

(** The status bar. *)
Inductive status :=
| StatusReady
| StatusLoaded (count : nat)
| StatusPlaying (name : pystr)
| StatusStopped
| StatusAddDone
| StatusConverting (name : pystr)
| StatusDeleted (count : nat)
| StatusSaved.

(** The boxes that tell of a failure ([QMessageBox.warning] and
    [critical]), as shown so far. The dialogs that ask (for a name, whether
    to overwrite, whether to save) are not among them. *)
Inductive message :=
| LoadFailed (e : exn)
| NameExists
| ConvertFailed (name : pystr)
| UnsupportedFormat
| SaveNoPermission
| SaveFailed (e : exn).

Record window := {
  plist_path : option pystr;
  audio_data : gmap pystr pystr;
  modified : bool;
  convert_queue : list pystr;
  progress_value : Z;
  progress_maximum : Z;
  progress_visible : bool;
  status_bar : status;
  messages : list message;
}.

Definition set_plist_path (p : option pystr) (st : window) : window :=
  {| plist_path := p; audio_data := audio_data st; modified := modified st;
     convert_queue := convert_queue st; progress_value := progress_value st;
     progress_maximum := progress_maximum st;
     progress_visible := progress_visible st; status_bar := status_bar st;
     messages := messages st |}.

Definition set_audio_data (d : gmap pystr pystr) (st : window) : window :=
  {| plist_path := plist_path st; audio_data := d; modified := modified st;
     convert_queue := convert_queue st; progress_value := progress_value st;
     progress_maximum := progress_maximum st;
     progress_visible := progress_visible st; status_bar := status_bar st;
     messages := messages st |}.

Definition set_modified (b : bool) (st : window) : window :=
  {| plist_path := plist_path st; audio_data := audio_data st; modified := b;
     convert_queue := convert_queue st; progress_value := progress_value st;
     progress_maximum := progress_maximum st;
     progress_visible := progress_visible st; status_bar := status_bar st;
     messages := messages st |}.

Definition set_convert_queue (q : list pystr) (st : window) : window :=
  {| plist_path := plist_path st; audio_data := audio_data st;
     modified := modified st; convert_queue := q;
     progress_value := progress_value st;
     progress_maximum := progress_maximum st;
     progress_visible := progress_visible st; status_bar := status_bar st;
     messages := messages st |}.

(** [progress_bar.setValue], [setMaximum], [setVisible]. *)
Definition set_progress (value maximum : Z) (visible : bool) (st : window)
  : window :=
  {| plist_path := plist_path st; audio_data := audio_data st;
     modified := modified st; convert_queue := convert_queue st;
     progress_value := value; progress_maximum := maximum;
     progress_visible := visible; status_bar := status_bar st;
     messages := messages st |}.

(** [status_bar.showMessage] *)
Definition showMessage (s : status) (st : window) : window :=
  {| plist_path := plist_path st; audio_data := audio_data st;
     modified := modified st; convert_queue := convert_queue st;
     progress_value := progress_value st;
     progress_maximum := progress_maximum st;
     progress_visible := progress_visible st; status_bar := s;
     messages := messages st |}.

(** [QMessageBox.warning] / [QMessageBox.critical] *)
Definition message_box (m : message) (st : window) : window :=
  {| plist_path := plist_path st; audio_data := audio_data st;
     modified := modified st; convert_queue := convert_queue st;
     progress_value := progress_value st;
     progress_maximum := progress_maximum st;
     progress_visible := progress_visible st; status_bar := status_bar st;
     messages := messages st ++ [m] |}.

(** [progress_bar.setValue(value)]: Qt ignores a value outside the range
    from 0 to the maximum. *)
Definition setValue (value : Z) (st : window) : window :=
  if ((0 <=? value) && (value <=? progress_maximum st))%Z
  then set_progress value (progress_maximum st) (progress_visible st) st
  else st.

(** [progress_bar.setValue(progress_bar.value() + 1)] *)
Definition progress_step (st : window) : window :=
  setValue (progress_value st + 1) st.

(** [not self.plist_path]: no path, or the empty one. *)
Definition no_path (st : window) : bool :=
  match plist_path st with
  | Some p => negb (truthy p)
  | None => true
  end.

(** ** The store: [load_plist], [save_plist], the read of an entry *)

(** [load_plist(file_path)]. The widgets that [update_ui] refreshes (the
    list, the title, the save button) are functions of the fields kept
    here. *)
Definition load_plist (w : world) (file_path : pystr) (st : window)
  : window :=
  match open_rb w file_path with
  | Raise e => message_box (LoadFailed e) st
  | Ok bytes =>
      match plistlib.load bytes with
      | Raise e => message_box (LoadFailed e) st
      | Ok d =>
          showMessage (StatusLoaded (size d))
            (set_modified false
               (set_plist_path (Some file_path) (set_audio_data d st)))
      end
  end.

(** The [try] block of [save_plist], with [self.plist_path] set to
    [path]. The file is opened, and cut to nothing, before the dict is
    serialised: when [plistlib.dump] raises, the [with] block closes the
    file with what the writer wrote until then. *)
Definition save_plist_to (w : world) (path : pystr) (st : window)
  : world * window :=
  let made_writable :=
    match files w !! path with
    | Some f =>
        let current_mode := st_mode f in
        if (Z.land current_mode 128 =? 0)%Z
        then chmod w path (Z.lor current_mode 128)
        else Ok w
    | None => Ok w
    end in
  match made_writable with
  | Raise PermissionError => (w, message_box SaveNoPermission st)
  | Raise e => (w, message_box (SaveFailed e) st)
  | Ok w1 =>
      match open_wb w1 path with
      | Raise PermissionError => (w1, message_box SaveNoPermission st)
      | Raise e => (w1, message_box (SaveFailed e) st)
      | Ok w2 =>
          match plistlib.dump (audio_data st) with
          | Raise PermissionError =>
              (write_all w2 path plistlib.Truncated,
               message_box SaveNoPermission st)
          | Raise e =>
              (write_all w2 path plistlib.Truncated,
               message_box (SaveFailed e) st)
          | Ok doc =>
              (write_all w2 path doc,
               showMessage StatusSaved (set_modified false st))
          end
      end
  end.

(** [save_plist()]; [chosen] is what the save dialog of [save_plist_as]
    returns when it is shown (the empty path when it is cancelled). *)
Definition save_plist (w : world) (chosen : pystr) (st : window)
  : world * window :=
  match plist_path st with
  | Some path =>
      if truthy path then save_plist_to w path st
      else if truthy chosen
           then save_plist_to w chosen (set_plist_path (Some chosen) st)
           else (w, st)
  | None =>
      if truthy chosen
      then save_plist_to w chosen (set_plist_path (Some chosen) st)
      else (w, st)
  end.

(** [save_plist_as()] *)
Definition save_plist_as (w : world) (chosen : pystr) (st : window)
  : world * window :=
  if truthy chosen
  then save_plist w chosen (set_plist_path (Some chosen) st)
  else (w, st).

(** What reading an entry gives: [play_audio] and [_export_single] look
    the name up and decode its text. *)
Inductive lookup_result :=
| NotFound
| Payload (audio_bytes : pybytes)
| Undecodable.

Definition get (st : window) (name : pystr) : lookup_result :=
  match audio_data st !! name with
  | None => NotFound
  | Some text =>
      match Base64.b64decode text with
      | Some audio_bytes => Payload audio_bytes
      | None => Undecodable
      end
  end.

(** ** Editing the store *)

(** [on_convert_finished(name, silk_data)], up to its call of
    [convert_next]. *)
Definition on_convert_finished (name : pystr) (silk_data : pybytes)
  (st : window) : window :=
  progress_step
    (set_modified true
       (set_audio_data (<[name := Base64.b64encode silk_data]> (audio_data st))
          st)).

(** [on_convert_error(name, error)], up to its call of [convert_next]. *)
Definition on_convert_error (name : pystr) (st : window) : window :=
  progress_step (message_box (ConvertFailed name) st).

(** [rename_selected()]: [selected] is the name of the current item of the
    list (if any), [new_name] and [ok] what the input dialog returns. The
    result is the window and the exception that leaves the slot, if any: a
    selected name that the dict does not hold makes [pop] raise before
    anything is changed. *)
Definition rename_selected (selected : option pystr) (new_name : pystr)
  (ok : bool) (st : window) : window * option exn :=
  match selected with
  | None => (st, None)
  | Some old_name =>
      if ok && truthy new_name && negb (bool_decide (new_name = old_name))
      then
        if bool_decide (is_Some (audio_data st !! new_name))
        then (message_box NameExists st, None)
        else
          match audio_data st !! old_name with
          | None => (st, Some KeyError)
          | Some text =>
              (set_modified true
                 (set_audio_data
                    (<[new_name := text]> (delete old_name (audio_data st)))
                    st),
               None)
          end
      else (st, None)
  end.

(** [for name in names: del self.audio_data[name]]: the dict after the
    loop, and whether the loop ran to its end ([false]: a name was
    missing, and [del] raised [KeyError] there). *)
Fixpoint del_each (names : list pystr) (d : gmap pystr pystr)
  : gmap pystr pystr * bool :=
  match names with
  | [] => (d, true)
  | name :: rest =>
      match d !! name with
      | Some _ => del_each rest (delete name d)
      | None => (d, false)
      end
  end.

(** [delete_selected()]: [names] are the selected items, [yes] the answer
    to the confirmation. *)
Definition delete_selected (names : list pystr) (yes : bool) (st : window)
  : window * option exn :=
  match names with
  | [] => (st, None)
  | _ :: _ =>
      if yes then
        match del_each names (audio_data st) with
        | (d, true) =>
            (showMessage (StatusDeleted (length names))
               (set_modified true (set_audio_data d st)),
             None)
        | (d, false) => (set_audio_data d st, Some KeyError)
        end
      else (st, None)
  end.

(** ** The conversion queue *)

(** What the user and the converter answer while a batch runs; each answer
    may depend on the window as it is when the question is put. *)
Record user := {
  (** [QInputDialog.getText] of [convert_next]: the text and [ok]. *)
  input_name : window -> pystr -> pystr * bool;
  (** the overwrite question: [true] for Yes. *)
  confirm_overwrite : window -> pystr -> bool;
  (** [AudioConverter.audio_to_silk(file_path)] *)
  encoded : window -> pystr -> option pybytes;
  (** [Path(f).suffix.lower() in SUPPORTED_FORMATS] *)
  supported : pystr -> bool;
}.

(** [f.endswith('.plist')] *)
Definition is_plist (f : pystr) : bool :=
  bool_decide (str ".plist" `suffix_of` f).

(** The slots of the queue, each run from its call to its return. A slot
    returns when [convert_next] has started a thread; the signal of the
    thread is delivered later, by the event loop, and other slots may run
    before it. *)
Module Slot.

(** A [ConvertThread]: the file and the name it is made with. *)
Record thread := {
  file_path : pystr;
  name : pystr;
}.

(** What a slot leaves when it returns: the window, the files that
    [convert_next] skipped, in their order, and the thread that it started
    and left running, if any. *)
Record outcome := {
  after : window;
  skips : list pystr;
  started : option thread;
}.

(** A slot that starts nothing. *)
Definition quiet (st : window) : outcome :=
  {| after := st; skips := []; started := None |}.

Definition skip (f : pystr) (o : outcome) : outcome :=
  {| after := after o; skips := f :: skips o; started := started o |}.

(** [convert_next()] on the queue [queue], with the calls of itself in its
    two skipping branches. *)
Fixpoint convert_loop (u : user) (queue : list pystr) (st : window)
  : outcome :=
  match queue with
  | [] =>
      quiet
        (showMessage StatusAddDone
           (set_progress (progress_value st) (progress_maximum st) false st))
  | f :: rest =>
      let st := set_convert_queue rest st in
      let text := fst (input_name u st f) in
      let ok := snd (input_name u st f) in
      if negb ok || negb (truthy (strip text)) then
        skip f (convert_loop u rest (progress_step st))
      else
        let text := strip text in
        if bool_decide (is_Some (audio_data st !! text))
           && negb (confirm_overwrite u st text)
        then skip f (convert_loop u rest (progress_step st))
        else
          {| after := showMessage (StatusConverting text) st;
             skips := [];
             started := Some {| file_path := f; name := text |} |}
  end.

Definition convert_next (u : user) (st : window) : outcome :=
  convert_loop u (convert_queue st) st.

(** The signal that a thread emits. *)
Inductive emitted :=
| to_finished (name : pystr) (silk_data : pybytes)
| to_error (name : pystr).

(** [ConvertThread.run()]; [audio_to_silk] is what
    [AudioConverter.audio_to_silk] returns for a file. *)
Definition run (audio_to_silk : pystr -> option pybytes) (t : thread)
  : emitted :=
  match audio_to_silk (file_path t) with
  | Some silk_data =>
      if truthy silk_data then to_finished (name t) silk_data
      else to_error (name t)
  | None => to_error (name t)
  end.

(** [on_convert_finished(name, silk_data)], to its return. *)
Definition on_convert_finished (u : user) (name : pystr)
  (silk_data : pybytes) (st : window) : outcome :=
  convert_next u (on_convert_finished name silk_data st).

(** [on_convert_error(name, error)], to its return. *)
Definition on_convert_error (u : user) (name : pystr) (st : window)
  : outcome :=
  convert_next u (on_convert_error name st).

(** [on_files_dropped(files)], to its return. *)
Definition on_files_dropped (u : user) (w : world) (dropped : list pystr)
  (st : window) : outcome :=
  match List.find is_plist dropped with
  | Some f => quiet (load_plist w f st)
  | None =>
      let valid_files := List.filter (supported u) dropped in
      match valid_files with
      | [] => quiet (message_box UnsupportedFormat st)
      | _ :: _ =>
          let st :=
            if no_path st
            then set_modified true
                   (set_plist_path None (set_audio_data ∅ st))
            else st in
          let st :=
            set_progress 0 (Z.of_nat (length valid_files)) true st in
          convert_next u (set_convert_queue valid_files st)
      end
  end.

End Slot.

(** How a job leaves the queue: skipped by [convert_next], or through one
    of the two signals of [ConvertThread]. *)
Inductive signal :=
| skipped (file_path : pystr)
| finished (name : pystr) (silk_data : pybytes)
| error (name : pystr).

Definition emit {A} (s : signal) (r : A * list signal) : A * list signal :=
  (fst r, s :: snd r).

(** A batch in one run: [convert_next()] on the queue [queue], in the run
    of the program in which the signal of every thread is delivered as
    soon as the thread is started, before any other slot runs, so that the
    slots of [Slot] follow each other with nothing in between. The program
    has other runs (a slot of another action of the user may run while a
    thread converts); those are made of the slots of [Slot]. *)
Fixpoint convert_loop (u : user) (queue : list pystr) (st : window)
  : window * list signal :=
  match queue with
  | [] =>
      (showMessage StatusAddDone
         (set_progress (progress_value st) (progress_maximum st) false st),
       [])
  | file_path :: rest =>
      let st := set_convert_queue rest st in
      let name := fst (input_name u st file_path) in
      let ok := snd (input_name u st file_path) in
      if negb ok || negb (truthy (strip name)) then
        emit (skipped file_path) (convert_loop u rest (progress_step st))
      else
        let name := strip name in
        if bool_decide (is_Some (audio_data st !! name))
           && negb (confirm_overwrite u st name)
        then emit (skipped file_path) (convert_loop u rest (progress_step st))
        else
          let st := showMessage (StatusConverting name) st in
          (* ConvertThread.run *)
          match encoded u st file_path with
          | Some silk_data =>
              if truthy silk_data then
                emit (finished name silk_data)
                  (convert_loop u rest (on_convert_finished name silk_data st))
              else
                emit (error name)
                  (convert_loop u rest (on_convert_error name st))
          | None =>
              emit (error name)
                (convert_loop u rest (on_convert_error name st))
          end
  end.

Definition convert_next (u : user) (st : window) : window * list signal :=
  convert_loop u (convert_queue st) st.

(** [on_files_dropped(files)], in the same run. *)
Definition on_files_dropped (u : user) (w : world) (dropped : list pystr)
  (st : window) : window * list signal :=
  match List.find is_plist dropped with
  | Some f => (load_plist w f st, [])
  | None =>
      let valid_files := List.filter (supported u) dropped in
      match valid_files with
      | [] => (message_box UnsupportedFormat st, [])
      | _ :: _ =>
          let st :=
            if no_path st
            then set_modified true
                   (set_plist_path None (set_audio_data ∅ st))
            else st in
          let st :=
            set_progress 0 (Z.of_nat (length valid_files)) true st in
          convert_next u (set_convert_queue valid_files st)
      end
  end.

(** ** The codec bridge and its temporary files *)
Module AudioConverter.

(** The suffix of a temporary file. *)
Inductive suffix := silk | pcm | wav.

#[global] Instance suffix_eq_dec : EqDecision suffix.
Proof. solve_decision. Defined.

#[global] Instance suffix_countable : Countable suffix.
Proof.
  refine (inj_countable'
            (fun s => match s with silk => 0%nat | pcm => 1%nat | wav => 2%nat end)
            (fun n => match n with O => silk | S O => pcm | _ => wav end) _).
  by intros [].
Defined.

(** A path in the temporary directory: the random stem that
    [NamedTemporaryFile] picks, and the suffix. [path.replace('.silk',
    '.pcm')] changes the suffix and keeps the stem. *)
Abbreviation path := (N * suffix)%type.

Definition replace_suffix (p : path) (s : suffix) : path := (fst p, s).

(** The temporary directory: the files in it. *)
Abbreviation tmpdir := (gset path).

(** What the tools outside the program do during one call. *)
Record tools := {
  (** the checks on the path of ffmpeg and [shutil.which] find it. *)
  ffmpeg_found : bool;
  (** [subprocess.run(cmd, ...)]: the return code. *)
  run_ffmpeg : result Z;
  (** [pilk.encode]: the bitstream it writes. *)
  pilk_encode : result pybytes;
  (** [pilk.decode]: the duration. *)
  pilk_decode : result Z;
  (** [AudioSegment.from_raw] *)
  from_raw : result unit;
  (** [audio.export] *)
  export : result unit;
}.

(** A computation on the temporary directory that may raise; the
    directory is as the computation left it either way. *)
Definition M (A : Type) : Type := tmpdir -> result A * tmpdir.

Definition ret {A} (a : A) : M A := fun d => (Ok a, d).

Definition bind {A B} (m : M A) (k : A -> M B) : M B :=
  fun d =>
    match m d with
    | (Ok a, d') => k a d'
    | (Raise e, d') => (Raise e, d')
    end.

Definition lift {A} (r : result A) : M A := fun d => (r, d).

(** [try: body except Exception: handler] *)
Definition try_except {A} (body : M A) (handler : exn -> M A) : M A :=
  fun d =>
    match body d with
    | (Ok a, d') => (Ok a, d')
    | (Raise e, d') => handler e d'
    end.

(** [try: body finally: cleanup] *)
Definition try_finally {A} (body : M A) (cleanup : M unit) : M A :=
  fun d =>
    match body d with
    | (r, d') =>
        match cleanup d' with
        | (Ok _, d'') => (r, d'')
        | (Raise e, d'') => (Raise e, d'')
        end
    end.

Notation "x <- m ;; k" := (bind m (fun x => k))
  (at level 100, m at next level, right associativity).

(** [NamedTemporaryFile(suffix=..., delete=False)], and any other write
    that leaves a file at the path. *)
Definition create (p : path) : M unit := fun d => (Ok tt, {[p]} ∪ d).

(** [os.unlink(p)] *)
Definition unlink (p : path) : M unit :=
  fun d =>
    if bool_decide (p ∈ d) then (Ok tt, d ∖ {[p]})
    else (Raise FileNotFoundError, d).

(** [AudioConverter.audio_to_silk(input_path)]; [stem] is the name the
    temporary file gets. *)
Definition audio_to_silk (t : tools) (stem : N) : M (option pybytes) :=
  try_except
    (if negb (ffmpeg_found t) then ret None
     else
       let pcm_path := (stem, pcm) in
       _ <- create pcm_path ;;
       returncode <- lift (run_ffmpeg t) ;;
       if negb (returncode =? 0)%Z then ret None
       else
         let silk_path := replace_suffix pcm_path silk in
         silk_data <- lift (pilk_encode t) ;;
         _ <- create silk_path ;;
         _ <- unlink pcm_path ;;
         _ <- unlink silk_path ;;
         ret (Some silk_data))
    (fun _ => ret None).

(** [AudioConverter.silk_to_wav(silk_data)]: the path of the WAV file, which
    the caller owns. *)
Definition silk_to_wav (t : tools) (stem : N) : M (option path) :=
  try_except
    (let silk_path := (stem, silk) in
     _ <- create silk_path ;;
     let pcm_path := replace_suffix silk_path pcm in
     _ <- lift (pilk_decode t) ;;
     _ <- create pcm_path ;;
     _ <- lift (from_raw t) ;;
     let wav_path := replace_suffix silk_path wav in
     _ <- lift (export t) ;;
     _ <- create wav_path ;;
     _ <- unlink silk_path ;;
     _ <- unlink pcm_path ;;
     ret (Some wav_path))
    (fun _ => ret None).

(** [convert_plist_to_audio.convert_silk_to_audio]: the two temporary
    files get the stems [stem1] and [stem2]; the result is the success flag
    (with the duration). *)
Definition convert_silk_to_audio (t : tools) (stem1 stem2 : N)
  : M (option Z) :=
  try_except
    (let silk_path := (stem1, silk) in
     _ <- create silk_path ;;
     let pcm_path := (stem2, pcm) in
     _ <- create pcm_path ;;
     try_finally
       (duration <- lift (pilk_decode t) ;;
        _ <- lift (from_raw t) ;;
        _ <- lift (export t) ;;
        ret (Some duration))
       (_ <- unlink silk_path ;; unlink pcm_path))
    (fun _ => ret None).

End AudioConverter.

(** ** The slots as steps of the window *)

(** The user actions that change the store or its flag, with what the
    dialogs of the slot return. *)
Inductive op :=
| OpLoad (file_path : pystr)
| OpFilesDropped (dropped : list pystr)
| OpConvertFinished (name : pystr) (silk_data : pybytes)
| OpConvertError (name : pystr)
| OpRename (selected : option pystr) (new_name : pystr) (ok : bool)
| OpDelete (names : list pystr) (yes : bool)
| OpSave (chosen : pystr)
| OpSaveAs (chosen : pystr).

(** One slot, run to its end (the two slots of the converter go on with
    [convert_next]). *)
Definition step (u : user) (w : world) (o : op) (st : window)
  : world * window :=
  match o with
  | OpLoad file_path => (w, load_plist w file_path st)
  | OpFilesDropped dropped => (w, fst (on_files_dropped u w dropped st))
  | OpConvertFinished name silk_data =>
      (w, fst (convert_next u (on_convert_finished name silk_data st)))
  | OpConvertError name =>
      (w, fst (convert_next u (on_convert_error name st)))
  | OpRename selected new_name ok =>
      (w, fst (rename_selected selected new_name ok st))
  | OpDelete names yes => (w, fst (delete_selected names yes st))
  | OpSave chosen => save_plist w chosen st
  | OpSaveAs chosen => save_plist_as w chosen st
  end.

(** The file at [path] holds the document that [plistlib.dump] makes of
    the dict. *)
Definition holds_dump (w : world) (path : pystr) (d : gmap pystr pystr)
  : Prop :=
  exists f doc,
    files w !! path = Some f /\ contents f = Some doc
    /\ plistlib.dump d = Ok doc.

(** The file at [path] can be read and parses to the dict. *)
Definition parses_to (w : world) (path : pystr) (d : gmap pystr pystr)
  : Prop :=
  exists bytes, open_rb w path = Ok bytes /\ plistlib.load bytes = Ok d.

(** ** Text that the property list keeps as it is *)

(** A character that [plistlib] writes and reads back unchanged: a legal
    XML character other than the carriage return. *)
Definition verbatim_char (c : N) : bool :=
  plistlib.xml_char c && negb (c =? 13).

Definition verbatim (text : pystr) : bool := forallb verbatim_char text.

(** Every name and every stored text of the dict is kept as it is. *)
Definition storable (d : gmap pystr pystr) : bool :=
  forallb (fun kv => verbatim (fst kv) && verbatim (snd kv)) (map_to_list d).

(** Text of legal XML characters: the writer accepts it and the parser
    reads it. *)
Definition readable (text : pystr) : bool := forallb plistlib.xml_char text.

(** What [_escape] makes of a text it accepts: the line ends turned into
    line feeds. *)
Definition line_feeds (text : pystr) : pystr :=
  plistlib.replace_cr (plistlib.replace_crlf text).

(** Every name of the dict is kept as it is, and every stored text is
    readable. *)
Definition keeps_names (d : gmap pystr pystr) : bool :=
  forallb (fun kv => verbatim (fst kv) && readable (snd kv)) (map_to_list d).

(** ** Example stores *)
Module Examples.

(** A payload, and the names of the scenarios. *)
Definition B : pybytes := SILK_MAGIC ++ [x01; x02; x03].
Definition greeting : pystr := str "greeting".
Definition hello : pystr := str "hello".
Definition voices_plist : pystr := str "voices.plist".

(** The container that holds [B] under [greeting], loaded from
    [voices.plist] and not changed since. *)
Definition one_entry : window :=
  {| plist_path := Some voices_plist;
     audio_data := {[ greeting := Base64.b64encode B ]};
     modified := false; convert_queue := [];
     progress_value := 0; progress_maximum := 100;
     progress_visible := false; status_bar := StatusLoaded 1;
     messages := [] |}.

(** The same container with a change that is not saved. *)
Definition one_entry_changed : window := set_modified true one_entry.

(** A name with a carriage return in it. *)
Definition two_lines : pystr := [97; 13; 98].

Definition carriage_return_entry : window :=
  set_audio_data {[ two_lines := Base64.b64encode B ]} one_entry_changed.

(** A name with the noncharacter U+FFFF in it. *)
Definition noncharacter : pystr := [97; 65535].

Definition noncharacter_entry : window :=
  set_audio_data {[ noncharacter := Base64.b64encode B ]} one_entry_changed.

(** A window that has loaded nothing yet. *)
Definition fresh : window :=
  {| plist_path := None; audio_data := ∅; modified := false;
     convert_queue := []; progress_value := 0; progress_maximum := 100;
     progress_visible := false; status_bar := StatusReady;
     messages := [] |}.

(** No file yet, nothing refused. *)
Definition empty_disk : world :=
  {| files := ∅; refused := fun _ => false |}.

(** [voices.plist] holds the one entry and is writable. *)
Definition disk : world :=
  {| files :=
       {[ voices_plist :=
            {| st_mode := 420;
               contents :=
                 Some (plistlib.Complete [(greeting, Base64.b64encode B)]) |} ]};
     refused := fun _ => false |}.

(** [voices.plist] is read-only and the system refuses to change it. *)
Definition locked_disk : world :=
  {| files :=
       {[ voices_plist :=
            {| st_mode := 292;
               contents :=
                 Some (plistlib.Complete [(greeting, Base64.b64encode B)]) |} ]};
     refused := fun _ => true |}.

(** A user who cancels every name dialog. *)
Definition cancels : user :=
  {| input_name := fun _ _ => ([], false);
     confirm_overwrite := fun _ _ => false;
     encoded := fun _ _ => None;
     supported := fun _ => true |}.

(** The tools of a call in which ffmpeg cannot read the input. *)
Definition ffmpeg_fails : AudioConverter.tools :=
  {| AudioConverter.ffmpeg_found := true;
     AudioConverter.run_ffmpeg := Ok 1%Z;
     AudioConverter.pilk_encode := Ok [];
     AudioConverter.pilk_decode := Ok 0%Z;
     AudioConverter.from_raw := Ok tt;
     AudioConverter.export := Ok tt |}.

End Examples.

(** ** Definitions used in the proofs *)

(** [f] holds of every number below [n]. *)
Definition all_below (n : nat) (f : N -> bool) : bool :=
  forallb f (List.map N.of_nat (seq 0 n)).

Module Sextets.
Import Base64.

(** The four sextets of three bytes, as [b2a_base64] cuts them. *)
Definition sextet0 (x : N) : N := N.shiftr x 2.
Definition sextet1 (x y : N) : N :=
  N.lor (N.shiftl (N.land x 3) 4) (N.shiftr y 4).
Definition sextet2 (y z : N) : N :=
  N.lor (N.shiftl (N.land y 15) 2) (N.shiftr z 6).
Definition sextet3 (z : N) : N := N.land z 63.

(** The facts about two byte values that the proof needs, checked on all
    of them. *)
Definition pair_facts (x y : N) : bool :=
  (sextet0 x <? 64) && (sextet1 x y <? 64) && (sextet2 x y <? 64)
  && (sextet3 x <? 64)
  && (N.lor (N.shiftl (sextet0 x) 2) (N.shiftr (sextet1 x y) 4) =? x)
  && (N.land (sextet1 x y) 15 =? N.shiftr y 4)
  && (N.shiftr (sextet2 x y) 2 =? N.land x 15)
  && (N.land (sextet2 x y) 3 =? N.shiftr y 6)
  && (N.lor (N.shiftl (N.shiftr x 4) 4) (N.land x 15) =? x)
  && (N.lor (N.shiftl (N.shiftr x 6) 6) (sextet3 x) =? x)
  && (N.land x 255 =? x).

End Sextets.


(** ** The slots of the queue *)


(** What the window does with a signal, up to the call of [convert_next]
    that ends the slot. *)
Definition delivered (s : Slot.emitted) (st : window) : window :=
  match s with
  | Slot.to_finished name silk_data => on_convert_finished name silk_data st
  | Slot.to_error name => on_convert_error name st
  end.

Definition signal_of (s : Slot.emitted) : signal :=
  match s with
  | Slot.to_finished name silk_data => finished name silk_data
  | Slot.to_error name => error name
  end.

(** ** Closing the window *)

(** The answer to the question about unsaved changes. *)
Inductive close_reply := ReplySave | ReplyDiscard | ReplyCancel.

(** [for f in self.temp_files: try: os.unlink(f) except: pass] *)
Definition unlink_all `{Countable T} (temp_files : list T) (dir : gset T)
  : gset T :=
  fold_left (fun d f => d ∖ {[f]}) temp_files dir.

(** [closeEvent(event)]: [temp_files] is the list of the window, [dir] the
    files of the temporary directory; the last component tells whether the
    event is accepted (the window closes). *)
Definition closeEvent `{Countable T} (w : world) (reply : close_reply)
  (chosen : pystr) (temp_files : list T) (dir : gset T) (st : window)
  : world * window * gset T * bool :=
  if modified st then
    match reply with
    | ReplySave =>
        (save_plist w chosen st, unlink_all temp_files dir, true)
    | ReplyCancel => (w, st, dir, false)
    | ReplyDiscard => (w, st, unlink_all temp_files dir, true)
    end
  else (w, st, unlink_all temp_files dir, true).

(** ** The names of exported files in the window *)

(** [re.sub(pattern, '', name)[:50]], the file name that [export_selected]
    and [export_all_audio] make of an entry name. *)
Definition export_safe_name (name : pystr) : pystr :=
  slice_to 50 (remove_illegal name).

(** ** More example stores *)
Module MoreExamples.

(** A name with a control character (U+0001) in it. *)
Definition bell_name : pystr := [97; 1].

Definition control_char_entry : window :=
  set_audio_data {[ bell_name := Base64.b64encode Examples.B ]}
    Examples.one_entry_changed.

(** Two temporary files of the player, as [N] stems. *)
Definition played : list N := [3; 5].

Definition temp_dir : gset N := {[3; 5; 9]}.

End MoreExamples.

(** ** More of the codec bridge, and the exports *)
Module Bridge.
Import AudioConverter.

(** [AudioConverter.silk_to_pcm(silk_data)]: the path of the PCM file,
    which the caller owns. *)
Definition silk_to_pcm (t : tools) (stem : N) : M (option path) :=
  try_except
    (let silk_path := (stem, silk) in
     _ <- create silk_path ;;
     let pcm_path := replace_suffix silk_path pcm in
     _ <- lift (pilk_decode t) ;;
     _ <- create pcm_path ;;
     _ <- unlink silk_path ;;
     ret (Some pcm_path))
    (fun _ => ret None).

(** What an exported file holds: the bytes written as they are, or audio
    that [audio.export] encoded in a format. A file that a failed export
    leaves half written is not kept track of. *)
Inductive written :=
| Raw (audio_bytes : pybytes)
| Encoded (format : pystr).

(** What the tools outside the program do during one call of
    [_export_single]. *)
Record exporter := {
  (** the tools during [silk_to_wav]. *)
  converter : tools;
  (** [AudioSegment.from_wav(wav_path)] *)
  from_wav : result unit;
  (** [audio.export(file_path, format=ext[1:])] *)
  export_file : result unit;
  (** [open(file_path, 'wb')] succeeds. *)
  writable : bool;
}.

(** What [_export_single] shows when [show_message] is set: the status
    line of a finished export, or the warning box. *)
Inductive notice :=
| Exported (file_path : pystr)
| ExportFailed.

Definition notify (show_message : bool) (n : notice) : option notice :=
  if show_message then Some n else None.

(** [ext == '.silk'] *)
Definition is_silk_ext (ext : pystr) : bool := bool_decide (ext = str ".silk").

(** [_export_single(name, file_path, show_message)]. [ext] stands for
    [Path(file_path).suffix.lower()], [stem] for the name that the
    temporary file of [silk_to_wav] gets, [out] for the files exported so
    far. The result is the returned flag, what is shown, the exported
    files and the temporary directory. *)
Definition _export_single (x : exporter) (stem : N) (ext : pystr)
  (name file_path : pystr) (show_message : bool) (st : window)
  (out : gmap pystr written) (tmp : tmpdir)
  : bool * option notice * gmap pystr written * tmpdir :=
  let failed tmp' := (false, notify show_message ExportFailed, out, tmp') in
  let done out' tmp' :=
    (true, notify show_message (Exported file_path), out', tmp') in
  match audio_data st !! name with
  | None => failed tmp
  | Some text =>
      match Base64.b64decode text with
      | None => failed tmp
      | Some audio_bytes =>
          if is_silk_ext ext then
            if writable x then done (<[file_path := Raw audio_bytes]> out) tmp
            else failed tmp
          else if startswith SILK_MAGIC audio_bytes then
            match silk_to_wav (converter x) stem tmp with
            | (Ok (Some wav_path), tmp1) =>
                match from_wav x with
                | Raise _ => failed tmp1
                | Ok _ =>
                    match export_file x with
                    | Raise _ => failed tmp1
                    | Ok _ =>
                        match unlink wav_path tmp1 with
                        | (Ok _, tmp2) =>
                            done (<[file_path := Encoded (tl ext)]> out) tmp2
                        | (Raise _, tmp2) => failed tmp2
                        end
                    end
                end
            | (Ok None, tmp1) => done out tmp1
            | (Raise _, tmp1) => failed tmp1
            end
          else
            if writable x then done (<[file_path := Raw audio_bytes]> out) tmp
            else failed tmp
      end
  end.

End Bridge.

(** ** The command-line converter ([convert_plist_to_audio.py]) *)
Module Cli.
Import AudioConverter.

(** What lies outside the program during a run: for the entry of a name,
    how the tools behave, which names the two temporary files get, and
    whether the output file of a name can be opened for writing. *)
Record env := {
  tools_of : pystr -> tools;
  stems_of : pystr -> N * N;
  writable : pystr -> bool;
}.

(** The two counters of the loop, the files in the output directory (by
    file name) and the temporary directory. *)
Record run := {
  success_count : nat;
  fail_count : nat;
  out : gmap pystr Bridge.written;
  tmp : tmpdir;
}.

Definition succeed (files : gmap pystr Bridge.written) (d : tmpdir) (r : run)
  : run :=
  {| success_count := S (success_count r); fail_count := fail_count r;
     out := files; tmp := d |}.

Definition fail (d : tmpdir) (r : run) : run :=
  {| success_count := success_count r; fail_count := S (fail_count r);
     out := out r; tmp := d |}.

(** The file name [safe_name.output_format]. *)
Definition file_name (safe_name output_format : pystr) : pystr :=
  safe_name ++ 46 :: output_format.

(** The body of the loop of [convert_plist_to_audio] for one entry. *)
Definition convert_entry (e : env) (output_format : pystr) (r : run)
  (entry : pystr * pystr) : run :=
  let name := fst entry in
  let base64_data := snd entry in
  let safe_name := sanitize_filename name default_max_length in
  match Base64.b64decode base64_data with
  | None => fail (tmp r) r
  | Some audio_data =>
      if negb (startswith SILK_MAGIC audio_data) then fail (tmp r) r
      else if bool_decide (output_format = str "silk") then
        (* save_silk_raw *)
        if writable e (file_name safe_name (str "silk"))
        then succeed
               (<[file_name safe_name (str "silk") := Bridge.Raw audio_data]>
                  (out r)) (tmp r) r
        else fail (tmp r) r
      else
        match convert_silk_to_audio (tools_of e name) (fst (stems_of e name))
                (snd (stems_of e name)) (tmp r) with
        | (Ok (Some duration), d) =>
            succeed
              (<[file_name safe_name output_format
                 := Bridge.Encoded output_format]> (out r)) d r
        | (_, d) => fail d r
        end
  end.

(** The loop over [plist_data.items()]. *)
Definition convert_entries (e : env) (output_format : pystr)
  (entries : list (pystr * pystr)) (r : run) : run :=
  fold_left (convert_entry e output_format) entries r.

(** [convert_plist_to_audio(plist_path, output_dir, output_format)], with
    the output directory empty at the start: [None] when the file does
    not exist (the function prints that and returns), the exception when
    the file cannot be parsed, the counters and the files otherwise. *)
Definition convert_plist_to_audio (e : env) (w : world)
  (plist_path output_format : pystr) (d : tmpdir) : option (result run) :=
  if negb (path_exists w plist_path) then None
  else
    match open_rb w plist_path with
    | Raise x => Some (Raise x)
    | Ok bytes =>
        match plistlib.load bytes with
        | Raise x => Some (Raise x)
        | Ok plist_data =>
            Some (Ok (convert_entries e output_format
                        (map_to_list plist_data)
                        {| success_count := 0; fail_count := 0;
                           out := ∅; tmp := d |}))
        end
    end.

End Cli.

(** An entry of the property list whose text decodes to a SILK bitstream.
    *)
Definition is_silk_entry (entry : pystr * pystr) : bool :=
  match Base64.b64decode (snd entry) with
  | Some audio_data => startswith SILK_MAGIC audio_data
  | None => false
  end.

(** * Properties *)

(** ** Checking a property of the numbers below a bound by evaluation *)

Lemma all_below_spec (n : nat) (f : N -> bool) :
  all_below n f = true -> forall x, x < N.of_nat n -> f x = true.
Proof.
  unfold all_below. intros H x Hx.
  rewrite forallb_forall in H. apply H.
  apply in_map_iff. exists (N.to_nat x). split; [apply N2Nat.id|].
  apply in_seq. lia.
Qed.

Lemma ord_lt_256 (b : byte) : Base64.ord b < 256.
Proof. unfold Base64.ord. pose proof (Byte.to_N_bounded b). lia. Qed.

(** ** base64: decoding what was encoded *)
Module Base64Facts.
Import Base64 Sextets.

Lemma a2b_b2a (i : N) : i < 64 -> a2b (b2a i) = Some i.
Proof.
  intros Hi.
  assert (H : all_below 64
                (fun i => bool_decide (a2b (b2a i) = Some i)) = true)
    by (vm_compute; reflexivity).
  apply (all_below_spec 64 _ H) in Hi. by apply bool_decide_eq_true in Hi.
Qed.

Lemma b2a_not_pad (i : N) : i < 64 -> (b2a i =? BASE64_PAD) = false.
Proof.
  intros Hi.
  assert (H : all_below 64 (fun i => negb (b2a i =? BASE64_PAD)) = true)
    by (vm_compute; reflexivity).
  apply (all_below_spec 64 _ H) in Hi. by apply negb_true_iff in Hi.
Qed.

Lemma b2a_ascii (i : N) : i < 64 -> (b2a i <? 128) = true.
Proof.
  intros Hi.
  assert (H : all_below 64 (fun i => b2a i <? 128) = true)
    by (vm_compute; reflexivity).
  exact (all_below_spec 64 _ H i Hi).
Qed.

Lemma pair_facts_hold (x y : N) : x < 256 -> y < 256 -> pair_facts x y = true.
Proof.
  intros Hx Hy.
  assert (H : all_below 256
                (fun x => all_below 256 (fun y => pair_facts x y)) = true)
    by (vm_compute; reflexivity).
  apply (all_below_spec 256 _ H) in Hx.
  exact (all_below_spec 256 _ Hx y Hy).
Qed.

Lemma chr8_ord (a : byte) : chr8 (ord a) = a.
Proof. by destruct a. Qed.

(** One step of the loop on a character of the alphabet. *)
Lemma a2b_loop_sextet (q l p v : N) (rest : list N) :
  v < 64 ->
  a2b_loop q l p (b2a v :: rest) =
    if q =? 0 then a2b_loop 1 v 0 rest
    else if q =? 1 then
      cons (chr8 (N.lor (N.shiftl l 2) (N.shiftr v 4)))
        <$> a2b_loop 2 (N.land v 15) 0 rest
    else if q =? 2 then
      cons (chr8 (N.lor (N.shiftl l 4) (N.shiftr v 2)))
        <$> a2b_loop 3 (N.land v 3) 0 rest
    else
      cons (chr8 (N.lor (N.shiftl l 6) v)) <$> a2b_loop 0 0 0 rest.
Proof.
  intros Hv. cbn [a2b_loop].
  by rewrite (b2a_not_pad v Hv), (a2b_b2a v Hv).
Qed.

Ltac byte_facts x y :=
  let H := fresh "F" in
  pose proof (pair_facts_hold (ord x) (ord y) (ord_lt_256 x) (ord_lt_256 y))
    as H;
  unfold pair_facts in H;
  repeat (apply andb_prop in H; destruct H as [H ?]);
  repeat match goal with
    | E : (_ <? _) = true |- _ => apply N.ltb_lt in E
    | E : (_ =? _) = true |- _ => apply N.eqb_eq in E
    end.

(** Three bytes come back from their four characters. *)
Lemma a2b_loop_quad (a b c : byte) (l p : N) (rest : list N) :
  a2b_loop 0 l p
    (b2a (sextet0 (ord a)) :: b2a (sextet1 (ord a) (ord b))
     :: b2a (sextet2 (ord b) (ord c)) :: b2a (sextet3 (ord c)) :: rest)
  = (fun tl => a :: b :: c :: tl) <$> a2b_loop 0 0 0 rest.
Proof.
  byte_facts a b. byte_facts b c. byte_facts c c.
  rewrite !a2b_loop_sextet by assumption.
  change (0 =? 0) with true. change (1 =? 0) with false.
  change (1 =? 1) with true. change (2 =? 0) with false.
  change (2 =? 1) with false. change (2 =? 2) with true.
  change (3 =? 0) with false. change (3 =? 1) with false.
  change (3 =? 2) with false. cbv iota.
  repeat match goal with
    | E : _ = _ |- _ => rewrite E
    end.
  rewrite !chr8_ord.
  by destruct (a2b_loop 0 0 0 rest).
Qed.


(** The sextet that ends a group of one or two bytes. *)
Lemma sextet1_last (x : N) : N.shiftl (N.land x 3) 4 = sextet1 x (ord x00).
Proof. unfold sextet1. change (N.shiftr (ord x00) 4) with 0. by rewrite N.lor_0_r. Qed.

Lemma sextet2_last (y : N) : N.shiftl (N.land y 15) 2 = sextet2 y (ord x00).
Proof. unfold sextet2. change (N.shiftr (ord x00) 6) with 0. by rewrite N.lor_0_r. Qed.

Ltac eval_quad_pos :=
  change (0 =? 0) with true; change (1 =? 0) with false;
  change (1 =? 1) with true; change (2 =? 0) with false;
  change (2 =? 1) with false; change (2 =? 2) with true;
  change (3 =? 0) with false; change (3 =? 1) with false;
  change (3 =? 2) with false; cbv iota.

(** A last group of one byte, with its two padding characters. *)
Lemma a2b_loop_tail1 (a : byte) (l p : N) :
  a2b_loop 0 l p
    [ b2a (N.shiftr (ord a) 2); b2a (N.shiftl (N.land (ord a) 3) 4);
      BASE64_PAD; BASE64_PAD ]
  = Some [a].
Proof.
  rewrite sextet1_last. change (N.shiftr (ord a) 2) with (sextet0 (ord a)).
  byte_facts a x00.
  rewrite !a2b_loop_sextet by assumption. eval_quad_pos.
  repeat match goal with E : _ = _ |- _ => rewrite E end.
  by rewrite chr8_ord.
Qed.

(** A last group of two bytes, with its padding character. *)
Lemma a2b_loop_tail2 (a b : byte) (l p : N) :
  a2b_loop 0 l p
    [ b2a (N.shiftr (ord a) 2);
      b2a (N.lor (N.shiftl (N.land (ord a) 3) 4) (N.shiftr (ord b) 4));
      b2a (N.shiftl (N.land (ord b) 15) 2);
      BASE64_PAD ]
  = Some [a; b].
Proof.
  rewrite sextet2_last. change (N.shiftr (ord a) 2) with (sextet0 (ord a)).
  change (N.lor (N.shiftl (N.land (ord a) 3) 4) (N.shiftr (ord b) 4))
    with (sextet1 (ord a) (ord b)).
  byte_facts a b. byte_facts b x00.
  rewrite !a2b_loop_sextet by assumption. eval_quad_pos.
  repeat match goal with E : _ = _ |- _ => rewrite E end.
  by rewrite !chr8_ord.
Qed.

(** The decoder gives back the bytes that were encoded, from any state at
    the start of a quad. *)
Lemma a2b_loop_b2a_base64 (data : pybytes) :
  forall l p, a2b_loop 0 l p (b2a_base64 data) = Some data.
Proof.
  assert (H : forall data : pybytes,
             (forall l p, a2b_loop 0 l p (b2a_base64 data) = Some data)
             /\ (forall a l p,
                   a2b_loop 0 l p (b2a_base64 (a :: data)) = Some (a :: data))
             /\ (forall a b l p,
                   a2b_loop 0 l p (b2a_base64 (a :: b :: data))
                   = Some (a :: b :: data))).
  { clear data. induction data as [|c data (IH0 & IH1 & IH2)].
    - split; [|split]; intros.
      + reflexivity.
      + exact (a2b_loop_tail1 a l p).
      + exact (a2b_loop_tail2 a b l p).
    - split; [|split]; intros.
      + apply IH1.
      + apply IH2.
      + change (b2a_base64 (a :: b :: c :: data))
          with (b2a (sextet0 (ord a)) :: b2a (sextet1 (ord a) (ord b))
                :: b2a (sextet2 (ord b) (ord c)) :: b2a (sextet3 (ord c))
                :: b2a_base64 data).
        by rewrite a2b_loop_quad, IH0. }
  apply H.
Qed.

(** Every character of the encoding is ASCII. *)
Lemma b2a_base64_ascii (data : pybytes) :
  forallb (fun c => c <? 128) (b2a_base64 data) = true.
Proof.
  assert (H : forall data : pybytes,
             forallb (fun c => c <? 128) (b2a_base64 data) = true
             /\ (forall a,
                   forallb (fun c => c <? 128) (b2a_base64 (a :: data)) = true)
             /\ (forall a b,
                   forallb (fun c => c <? 128) (b2a_base64 (a :: b :: data))
                   = true)).
  { clear data. induction data as [|c data (IH0 & IH1 & IH2)].
    - split; [|split]; intros.
      + reflexivity.
      + byte_facts a x00. cbn [b2a_base64 forallb].
        rewrite sextet1_last.
        change (N.shiftr (ord a) 2) with (sextet0 (ord a)).
        by rewrite !b2a_ascii by assumption.
      + byte_facts a b. byte_facts b x00. cbn [b2a_base64 forallb].
        rewrite sextet2_last.
        change (N.shiftr (ord a) 2) with (sextet0 (ord a)).
        change (N.lor (N.shiftl (N.land (ord a) 3) 4) (N.shiftr (ord b) 4))
          with (sextet1 (ord a) (ord b)).
        by rewrite !b2a_ascii by assumption.
    - split; [|split]; intros.
      + apply IH1.
      + apply IH2.
      + byte_facts a b. byte_facts b c. byte_facts c c.
        change (b2a_base64 (a :: b :: c :: data))
          with (b2a (sextet0 (ord a)) :: b2a (sextet1 (ord a) (ord b))
                :: b2a (sextet2 (ord b) (ord c)) :: b2a (sextet3 (ord c))
                :: b2a_base64 data).
        cbn [forallb]. by rewrite !b2a_ascii, IH0 by assumption. }
  apply H.
Qed.

(** [b64decode(b64encode(data)) == data] *)
Lemma b64decode_b64encode (data : pybytes) :
  b64decode (b64encode data) = Some data.
Proof.
  unfold b64decode, b64encode, a2b_base64.
  by rewrite b2a_base64_ascii, a2b_loop_b2a_base64.
Qed.

End Base64Facts.

(** ** The format check *)

Lemma startswith_firstn (prefix data : pybytes) :
  startswith prefix data = true <-> firstn (length prefix) data = prefix.
Proof.
  revert data. induction prefix as [|p prefix IH]; intros data.
  - by destruct data.
  - destruct data as [|d data]; cbn [startswith length firstn].
    + split; discriminate.
    + destruct (Byte.eqb p d) eqn:E.
      * apply Byte.byte_dec_bl in E. subst d. rewrite IH.
        split; [congruence | by intros [= ->]].
      * apply Byte.eqb_false in E. split; [discriminate | congruence].
  Qed.

Lemma startswith_short (prefix data : pybytes) :
  (length data < length prefix)%nat -> startswith prefix data = false.
Proof.
  intros Hlen. destruct (startswith prefix data) eqn:E; [|done].
  apply startswith_firstn in E.
  apply (f_equal (@length byte)) in E. rewrite length_firstn in E. lia.
Qed.

(** C2. [classify b] is [SpeechCodec] exactly when the first ten bytes of [b]
    are the byte 0x02 followed by the ASCII text #!SILK_V3, and [Opaque]
    otherwise; a buffer shorter than ten bytes is [Opaque], and so is the
    buffer of nine zero bytes. [classify] is a total function: it reads no
    byte beyond the buffer and raises nothing. *)
Theorem classify_iff_magic (b : pybytes) :
  (classify b = SpeechCodec <-> firstn 10 b = SILK_MAGIC)
  /\ (classify b = Opaque <-> firstn 10 b <> SILK_MAGIC)
  /\ ((length b < 10)%nat -> classify b = Opaque)
  /\ classify (repeat x00 9) = Opaque.
Proof.
  unfold classify.
  pose proof (startswith_firstn SILK_MAGIC b) as H.
  change (length SILK_MAGIC) with 10%nat in H.
  split; [|split; [|split]].
  - destruct (startswith SILK_MAGIC b); [tauto|].
    split; [discriminate|]. intros E. apply H in E. discriminate.
  - destruct (startswith SILK_MAGIC b).
    + split; [discriminate|]. intros E. destruct E. by apply H.
    + split; [|done]. intros _ E. apply H in E. discriminate.
  - intros Hlen. by rewrite startswith_short.
  - reflexivity.
Qed.

(** The statement of C2 at a SILK payload and at a short buffer. *)
Lemma classify_iff_magic_witness :
  classify (SILK_MAGIC ++ [x01]) = SpeechCodec
  /\ classify [x02; x23; x21] = Opaque.
Proof.
  split.
  - apply (proj1 (classify_iff_magic (SILK_MAGIC ++ [x01]))). reflexivity.
  - apply (proj1 (proj2 (proj2 (classify_iff_magic [x02; x23; x21])))).
    simpl. lia.
Defined.

(** ** [sanitize_filename] *)

Lemma lstrip_decompose (s : pystr) :
  exists pre, s = pre ++ lstrip s.
Proof.
  induction s as [|c s [pre IH]]; [by exists []|].
  cbn [lstrip]. destruct (isspace c).
  - exists (c :: pre). cbn. by rewrite <- IH.
  - by exists [].
Qed.

Lemma lstrip_head (s : pystr) (c : N) :
  head (lstrip s) = Some c -> isspace c = false.
Proof.
  induction s as [|d s IH]; [done|].
  cbn [lstrip]. destruct (isspace d) eqn:E; [done|].
  by intros [= <-].
Qed.

Lemma rstrip_decompose (s : pystr) :
  exists post, s = rstrip s ++ post.
Proof.
  unfold rstrip. destruct (lstrip_decompose (rev s)) as [pre E].
  exists (rev pre).
  rewrite <- rev_app_distr, <- E. by rewrite rev_involutive.
Qed.

Lemma last_rev_head (s : pystr) : last (rev s) = head s.
Proof. destruct s as [|c s]; [done|]. cbn [rev]. by rewrite last_snoc. Qed.

Lemma rstrip_last (s : pystr) (c : N) :
  last (rstrip s) = Some c -> isspace c = false.
Proof.
  unfold rstrip. rewrite last_rev_head. apply lstrip_head.
Qed.

Lemma rstrip_head (s : pystr) (c : N) :
  head (rstrip s) = Some c -> head s = Some c.
Proof.
  destruct (rstrip_decompose s) as [post E].
  intros H. rewrite E. by destruct (rstrip s).
Qed.

Lemma strip_decompose (s : pystr) :
  exists pre post, s = pre ++ strip s ++ post.
Proof.
  unfold strip. destruct (lstrip_decompose s) as [pre E1].
  destruct (rstrip_decompose (lstrip s)) as [post E2].
  exists pre, post. by rewrite <- E2.
Qed.

Lemma strip_ends (s : pystr) (c : N) :
  head (strip s) = Some c \/ last (strip s) = Some c -> isspace c = false.
Proof.
  unfold strip. intros [H|H].
  - apply rstrip_head in H. by apply lstrip_head in H.
  - by apply rstrip_last in H.
Qed.

Lemma strip_length (s : pystr) : (length (strip s) <= length s)%nat.
Proof.
  destruct (strip_decompose s) as (pre & post & E).
  rewrite E at 2. rewrite !length_app. lia.
Qed.

Lemma strip_Forall (P : N -> Prop) (s : pystr) :
  Forall P s -> Forall P (strip s).
Proof.
  destruct (strip_decompose s) as (pre & post & E).
  intros H. rewrite E in H.
  apply Forall_app in H as [_ H]. by apply Forall_app in H as [H _].
Qed.

Lemma remove_illegal_Forall (name : pystr) :
  Forall (fun c => mem_N c illegal_chars = false) (remove_illegal name).
Proof.
  unfold remove_illegal. apply List.Forall_forall. intros c Hc.
  apply filter_In in Hc as [_ Hc]. by apply negb_true_iff in Hc.
Qed.

Lemma slice_to_length (n : Z) (s : pystr) :
  (0 <= n)%Z -> (Z.of_nat (length (slice_to n s)) <= n)%Z.
Proof.
  intros Hn. unfold slice_to.
  destruct (0 <=? n)%Z eqn:E; [|lia]. rewrite length_firstn. lia.
Qed.

Lemma slice_to_Forall (P : N -> Prop) (n : Z) (s : pystr) :
  Forall P s -> Forall P (slice_to n s).
Proof.
  intros H. unfold slice_to. destruct (0 <=? n)%Z; by apply Forall_take.
Qed.

Lemma lstrip_spaces (s : pystr) : forallb isspace s = true -> lstrip s = [].
Proof.
  induction s as [|c s IH]; [done|]. cbn [forallb lstrip].
  intros H. apply andb_prop in H as [-> H]. by apply IH.
Qed.

Lemma forallb_firstn (f : N -> bool) (n : nat) (s : pystr) :
  forallb f s = true -> forallb f (firstn n s) = true.
Proof.
  revert n. induction s as [|c s IH]; intros [|n]; try done.
  cbn [forallb firstn]. intros H. apply andb_prop in H as [-> H].
  by rewrite IH.
Qed.

(** C10. The file name that [sanitize_filename] makes of an entry name
    (with the default bound of 50) holds none of the characters
    less-than, greater-than, colon, double quote, slash, backslash, bar,
    question mark and star, is at most 50 characters long, neither starts
    nor ends with whitespace, and is not empty: [unnamed] stands in when
    nothing but whitespace is left of the name. *)
Theorem sanitize_filename_safe (name : pystr) :
  let safe_name := sanitize_filename name default_max_length in
  Forall (fun c => mem_N c illegal_chars = false) safe_name
  /\ (length safe_name <= 50)%nat
  /\ (forall c, head safe_name = Some c -> isspace c = false)
  /\ (forall c, last safe_name = Some c -> isspace c = false)
  /\ safe_name <> []
  /\ (forallb isspace (remove_illegal name) = true ->
      safe_name = str "unnamed").
Proof.
  cbv zeta. unfold sanitize_filename, default_max_length.
  set (cleaned := remove_illegal name).
  set (cut := if (50 <? Z.of_nat (length cleaned))%Z
              then slice_to 50 cleaned else cleaned).
  assert (Hcut_chars : Forall (fun c => mem_N c illegal_chars = false) cut).
  { subst cut. destruct (50 <? _)%Z;
      [apply slice_to_Forall|]; apply remove_illegal_Forall. }
  assert (Hcut_len : (length cut <= 50)%nat).
  { subst cut. destruct (50 <? _)%Z eqn:E.
    - pose proof (slice_to_length 50 cleaned). lia.
    - apply Z.ltb_ge in E. lia. }
  assert (Hcut_spaces : forallb isspace cleaned = true -> strip cut = []).
  { intros H. unfold strip. rewrite lstrip_spaces; [done|].
    subst cut. destruct (50 <? _)%Z; [|done].
    by apply forallb_firstn. }
  destruct (truthy (strip cut)) eqn:Hne.
  - split; [|split; [|split; [|split; [|split]]]].
    + by apply strip_Forall.
    + pose proof (strip_length cut). lia.
    + intros c H. apply (strip_ends cut). by left.
    + intros c H. apply (strip_ends cut). by right.
    + intros E. by rewrite E in Hne.
    + intros H. by rewrite Hcut_spaces in Hne.
  - change (str "unnamed") with [117; 110; 110; 97; 109; 101; 100].
    split; [|split; [|split; [|split; [|split]]]].
    + repeat constructor.
    + cbn. lia.
    + intros c [= <-]. reflexivity.
    + intros c [= <-]. reflexivity.
    + discriminate.
    + reflexivity.
Qed.

(** The statement of C10 at a name of illegal characters and blanks. *)
Lemma sanitize_filename_safe_witness :
  sanitize_filename [32; 60; 62; 32] default_max_length = str "unnamed".
Proof.
  apply (proj2 (proj2 (proj2 (proj2 (proj2
           (sanitize_filename_safe [32; 60; 62; 32])))))).
  reflexivity.
Defined.

(** ** The fields that a slot leaves alone *)

Lemma setValue_fields (value : Z) (st : window) :
  audio_data (setValue value st) = audio_data st
  /\ modified (setValue value st) = modified st
  /\ plist_path (setValue value st) = plist_path st
  /\ messages (setValue value st) = messages st
  /\ convert_queue (setValue value st) = convert_queue st.
Proof. unfold setValue. by destruct (_ && _). Qed.

Lemma audio_data_progress_step (st : window) :
  audio_data (progress_step st) = audio_data st.
Proof. apply setValue_fields. Qed.

Lemma modified_progress_step (st : window) :
  modified (progress_step st) = modified st.
Proof. apply setValue_fields. Qed.

Lemma messages_progress_step (st : window) :
  messages (progress_step st) = messages st.
Proof. apply setValue_fields. Qed.


(** ** An entry put into the store is read back *)

(** C6. For every name and every payload, the empty one included: after
    [on_convert_finished] has stored the payload under the name, reading
    the name gives the payload back, byte for byte (decoding the base64
    text undoes the encoding). *)
Theorem put_then_get (name : pystr) (p : pybytes) (st : window) :
  get (on_convert_finished name p st) name = Payload p
  /\ Base64.b64decode (Base64.b64encode p) = Some p.
Proof.
  split; [|apply Base64Facts.b64decode_b64encode].
  unfold get, on_convert_finished. rewrite audio_data_progress_step.
  cbn [audio_data set_modified set_audio_data].
  rewrite lookup_insert_eq.
  by rewrite Base64Facts.b64decode_b64encode.
Qed.

(** ** Renaming an entry *)

(** C1, as the code has it. For a store that holds [old_name] and a new
    name that is not empty and differs from the old one: if the new name is
    free, the entry moves to it (reading the new name gives what the old
    name gave, the old name is not found, every other name reads as before,
    the flag is set); if the new name is taken, the conflict is reported and
    the window is otherwise as before. With an empty new name, or the old
    name again, nothing happens and nothing is reported. *)
Theorem rename_selected_spec (st : window) (old_name new_name : pystr) :
  is_Some (audio_data st !! old_name) ->
  let st' := fst (rename_selected (Some old_name) new_name true st) in
  snd (rename_selected (Some old_name) new_name true st) = None
  /\ (new_name <> [] -> new_name <> old_name ->
      audio_data st !! new_name = None ->
      get st' new_name = get st old_name
      /\ get st' old_name = NotFound
      /\ (forall other, other <> old_name -> other <> new_name ->
            get st' other = get st other)
      /\ modified st' = true)
  /\ (new_name <> [] -> new_name <> old_name ->
      is_Some (audio_data st !! new_name) ->
      st' = message_box NameExists st)
  /\ (new_name = [] \/ new_name = old_name -> st' = st).
Proof.
  intros [text Hold]. cbv zeta. unfold rename_selected. cbn [andb].
  destruct new_name as [|c new_name].
  { cbn. split; [done|]. split; [done|]. split; [done|]. done. }
  cbn [truthy andb].
  destruct (bool_decide (c :: new_name = old_name)) eqn:Eq; cbn [negb].
  { apply bool_decide_eq_true in Eq.
    split; [done|]. split; [done|]. split; [done|]. done. }
  apply bool_decide_eq_false in Eq.
  destruct (bool_decide (is_Some (audio_data st !! (c :: new_name)))) eqn:Enew.
  - apply bool_decide_eq_true in Enew.
    split; [done|]. split; [|split; [done|]].
    + intros _ _ Hnone. rewrite Hnone in Enew. by destruct Enew.
    + intros [|]; done.
  - apply bool_decide_eq_false in Enew.
    rewrite Hold. cbn [fst snd].
    split; [done|]. split; [|split].
    + intros _ _ Hnone. unfold get.
      cbn [audio_data set_modified set_audio_data modified].
      split; [|split; [|split]].
      * by rewrite lookup_insert_eq, Hold.
      * rewrite lookup_insert_ne by done. by rewrite lookup_delete_eq.
      * intros other H1 H2.
        rewrite lookup_insert_ne by done. by rewrite lookup_delete_ne.
      * reflexivity.
    + intros _ _ H. done.
    + intros [|]; done.
Qed.

(** The statement of C1 for the scenario of the specification: the
    container that holds [B] under [greeting], renamed to [hello]. *)
Lemma rename_selected_spec_witness :
  get (fst (rename_selected (Some Examples.greeting) Examples.hello true
              Examples.one_entry)) Examples.hello
  = Payload Examples.B
  /\ get (fst (rename_selected (Some Examples.greeting) Examples.hello true
                 Examples.one_entry)) Examples.greeting
     = NotFound.
Proof.
  assert (H : is_Some (audio_data Examples.one_entry !! Examples.greeting))
    by (eexists; vm_compute; reflexivity).
  destruct (rename_selected_spec Examples.one_entry Examples.greeting
              Examples.hello H) as (_ & Hfree & _).
  destruct Hfree as (Hnew & Hold & _).
  - vm_compute. discriminate.
  - vm_compute. discriminate.
  - vm_compute. reflexivity.
  - split; [|exact Hold]. rewrite Hnew. vm_compute. reflexivity.
Defined.

(** C1 as stated fails on the code. With the empty text as the new name
    (a name that is absent), [rename_selected] does nothing: the new name is
    still not found. With the old name as the new name (a name that is
    present), no conflict is reported. *)
Lemma rename_to_empty_name_counterexample :
  let st := Examples.one_entry in
  let renamed := fst (rename_selected (Some Examples.greeting) [] true st) in
  let same := fst (rename_selected (Some Examples.greeting)
                     Examples.greeting true st) in
  is_Some (audio_data st !! Examples.greeting)
  /\ audio_data st !! [] = None
  /\ get renamed [] <> get st Examples.greeting
  /\ get renamed Examples.greeting <> NotFound
  /\ messages same = [].
Proof.
  cbv zeta. split; [eexists; vm_compute; reflexivity|].
  split; [vm_compute; reflexivity|].
  split; [vm_compute; discriminate|].
  split; [vm_compute; discriminate|].
  vm_compute; reflexivity.
Qed.

(** ** Saving *)

(** C3. When the file of the store exists without the write bit and the
    attempt to set the bit is refused, [save_plist] reports the missing
    permission and leaves the dict, the flag and the file as they were;
    when the attempt is allowed, the file gets the write bit and is written.
    [save_plist] clears a set flag only when it has written the file. *)
Theorem save_plist_read_only (w : world) (st : window) (path chosen : pystr)
  (f : file) :
  plist_path st = Some path -> path <> [] ->
  files w !! path = Some f -> Z.land (st_mode f) 128 = 0%Z ->
  (refused w path = true ->
   save_plist w chosen st = (w, message_box SaveNoPermission st)
   /\ audio_data (snd (save_plist w chosen st)) = audio_data st
   /\ modified (snd (save_plist w chosen st)) = modified st)
  /\ (refused w path = false ->
      forall doc, plistlib.dump (audio_data st) = Ok doc ->
      save_plist w chosen st =
        (with_files
           (<[path := {| st_mode := Z.lor (st_mode f) 128;
                         contents := Some doc |}]> (files w)) w,
         showMessage StatusSaved (set_modified false st)))
  /\ (modified st = true ->
      modified (snd (save_plist w chosen st)) = false ->
      holds_dump (fst (save_plist w chosen st)) path (audio_data st)
      /\ audio_data (snd (save_plist w chosen st)) = audio_data st).
Proof.
  intros Hpath Hne Hfile Hmode.
  assert (Hsave : save_plist w chosen st = save_plist_to w path st).
  { unfold save_plist. rewrite Hpath. by destruct path. }
  rewrite Hsave. clear Hsave.
  unfold save_plist_to. rewrite Hfile.
  apply Z.eqb_eq in Hmode as Hmode'. rewrite Hmode'.
  unfold chmod. rewrite Hfile.
  split; [|split].
  - intros Href. rewrite Href. done.
  - intros Href doc Hdoc. rewrite Href.
    unfold open_wb. cbn [refused with_files files]. rewrite Href.
    rewrite lookup_insert_eq. cbn [st_mode contents].
    assert (Hbit : (Z.land (Z.lor (st_mode f) 128) 128 =? 0)%Z = false).
    { apply Z.eqb_neq. rewrite Z.land_lor_distr_l, Hmode.
      by rewrite Z.land_diag. }
    rewrite Hbit, Hdoc. unfold write_all. cbn [files with_files].
    rewrite lookup_insert_eq. cbn [st_mode refused].
    by rewrite !insert_insert_eq.
  - intros Hdirty.
    destruct (refused w path) eqn:Href.
    { cbn [snd modified message_box]. congruence. }
    unfold open_wb. cbn [refused with_files files]. rewrite Href.
    rewrite lookup_insert_eq. cbn [st_mode contents].
    assert (Hbit : (Z.land (Z.lor (st_mode f) 128) 128 =? 0)%Z = false).
    { apply Z.eqb_neq. rewrite Z.land_lor_distr_l, Hmode.
      by rewrite Z.land_diag. }
    rewrite Hbit.
    destruct (plistlib.dump (audio_data st)) as [doc|e] eqn:Hdoc.
    + intros _. split; [|done]. cbn [fst].
      unfold write_all. cbn [files with_files].
      rewrite lookup_insert_eq. cbn [st_mode refused].
      eexists _, doc. cbn [files with_files].
      rewrite lookup_insert_eq. done.
    + destruct e; cbn [snd modified message_box]; congruence.
Qed.

(** The statement of C3 for a read-only file that the system refuses to
    change, and a store with a change to save. *)
Lemma save_plist_read_only_witness :
  save_plist Examples.locked_disk [] Examples.one_entry_changed
  = (Examples.locked_disk,
     message_box SaveNoPermission Examples.one_entry_changed).
Proof.
  refine (proj1 (proj1 (save_plist_read_only Examples.locked_disk
                   Examples.one_entry_changed Examples.voices_plist []
                   {| st_mode := 292;
                      contents :=
                        Some (plistlib.Complete
                                [(Examples.greeting,
                                  Base64.b64encode Examples.B)]) |}
                   _ _ _ _) _)).
  - reflexivity.
  - vm_compute. discriminate.
  - vm_compute. reflexivity.
  - reflexivity.
  - reflexivity.
Defined.

(** After [open(path, 'wb')] the file is there. *)
Lemma open_wb_file (w w' : world) (path : pystr) :
  open_wb w path = Ok w' -> is_Some (files w' !! path).
Proof.
  unfold open_wb. destruct (refused w path); [done|].
  destruct (files w !! path) as [f|].
  - destruct (Z.land (st_mode f) 128 =? 0)%Z; [done|].
    intros [= <-]. cbn. rewrite lookup_insert_eq. eauto.
  - intros [= <-]. cbn. rewrite lookup_insert_eq. eauto.
Qed.

Lemma write_all_holds (w : world) (path : pystr) (d : gmap pystr pystr)
  (doc : plistlib.document) :
  is_Some (files w !! path) -> plistlib.dump d = Ok doc ->
  holds_dump (write_all w path doc) path d.
Proof.
  intros [f Hf] Hdoc. unfold write_all. rewrite Hf.
  eexists _, doc. cbn [files with_files]. by rewrite lookup_insert_eq.
Qed.

(** The [try] block of [save_plist] either writes the file and clears the
    flag, or shows a message box and changes nothing else in the window. *)
Lemma save_plist_to_cases (w : world) (path : pystr) (st : window) :
  (holds_dump (fst (save_plist_to w path st)) path (audio_data st)
   /\ snd (save_plist_to w path st)
      = showMessage StatusSaved (set_modified false st))
  \/ (exists m, snd (save_plist_to w path st) = message_box m st).
Proof.
  unfold save_plist_to.
  destruct (match files w !! path with
            | Some f => _
            | None => Ok w
            end) as [w1|e] eqn:E1.
  2:{ right. destruct e; eauto. }
  destruct (open_wb w1 path) as [w2|e] eqn:E2.
  2:{ right. destruct e; eauto. }
  destruct (plistlib.dump (audio_data st)) as [doc|e] eqn:E3.
  2:{ right. destruct e; eauto. }
  left. split; [|done]. cbn [fst].
  apply write_all_holds; [|done]. by eapply open_wb_file.
Qed.

(** [save_plist] clears a set flag only by writing the dict to the file of
    the store. *)
Lemma save_plist_clears_flag (w : world) (chosen : pystr) (st : window) :
  modified st = true ->
  modified (snd (save_plist w chosen st)) = false ->
  exists path,
    plist_path (snd (save_plist w chosen st)) = Some path
    /\ holds_dump (fst (save_plist w chosen st)) path (audio_data st)
    /\ audio_data (snd (save_plist w chosen st)) = audio_data st.
Proof.
  intros Hdirty. unfold save_plist.
  assert (Hto : forall path st0,
             modified st0 = true -> plist_path st0 = Some path ->
             modified (snd (save_plist_to w path st0)) = false ->
             exists path',
               plist_path (snd (save_plist_to w path st0)) = Some path'
               /\ holds_dump (fst (save_plist_to w path st0)) path'
                    (audio_data st0)
               /\ audio_data (snd (save_plist_to w path st0))
                  = audio_data st0).
  { intros path st0 Hd Hp.
    destruct (save_plist_to_cases w path st0) as [[Hh ->]|[m ->]].
    - intros _. exists path. by cbn.
    - cbn. congruence. }
  destruct (plist_path st) as [path|] eqn:Hp.
  - destruct (truthy path).
    + by apply Hto.
    + destruct (truthy chosen); [|cbn; congruence].
      exact (Hto chosen (set_plist_path (Some chosen) st) Hdirty eq_refl).
  - destruct (truthy chosen); [|cbn; congruence].
    exact (Hto chosen (set_plist_path (Some chosen) st) Hdirty eq_refl).
Qed.

(** ** Loading *)

(** [load_plist] either takes the dict of the file and clears the flag, or
    shows a message box and changes nothing else. *)
Lemma load_plist_cases (w : world) (file_path : pystr) (st : window) :
  (exists d,
     parses_to w file_path d
     /\ load_plist w file_path st
        = showMessage (StatusLoaded (size d))
            (set_modified false
               (set_plist_path (Some file_path) (set_audio_data d st))))
  \/ (exists e,
        (open_rb w file_path = Raise e
         \/ exists bytes, open_rb w file_path = Ok bytes
                          /\ plistlib.load bytes = Raise e)
        /\ load_plist w file_path st = message_box (LoadFailed e) st).
Proof.
  unfold load_plist, parses_to.
  destruct (open_rb w file_path) as [bytes|e] eqn:E1; [|right; eauto].
  destruct (plistlib.load bytes) as [d|e] eqn:E2.
  - left. eauto.
  - right. exists e. split; [right; eauto|done].
Qed.

(** C9. If [load_plist] cannot open the file, or the parser raises, the
    dict, the path of the store and the flag are as they were before the
    call (the window only shows the error). *)
Theorem load_plist_failure_atomic (w : world) (file_path : pystr)
  (st : window) (e : exn) :
  (open_rb w file_path = Raise e
   \/ exists bytes, open_rb w file_path = Ok bytes
                    /\ plistlib.load bytes = Raise e) ->
  audio_data (load_plist w file_path st) = audio_data st
  /\ plist_path (load_plist w file_path st) = plist_path st
  /\ modified (load_plist w file_path st) = modified st
  /\ load_plist w file_path st = message_box (LoadFailed e) st.
Proof.
  unfold load_plist. intros [E|(bytes & E1 & E2)].
  - by rewrite E.
  - by rewrite E1, E2.
Qed.

(** The statement of C9 for a file that is not there. *)
Lemma load_plist_failure_atomic_witness :
  audio_data (load_plist Examples.empty_disk Examples.voices_plist
                Examples.one_entry_changed)
  = audio_data Examples.one_entry_changed
  /\ modified (load_plist Examples.empty_disk Examples.voices_plist
                 Examples.one_entry_changed) = true.
Proof.
  destruct (load_plist_failure_atomic Examples.empty_disk
              Examples.voices_plist Examples.one_entry_changed
              FileNotFoundError) as (Hd & _ & Hm & _).
  - left. reflexivity.
  - split; [exact Hd | exact Hm].
Defined.

(** ** The property list keeps verbatim text *)
Module PlistFacts.
Import plistlib.

Lemma verbatim_char_spec (c : N) :
  verbatim_char c = true ->
  control_char c = false /\ surrogate c = false /\ (c =? 13) = false
  /\ xml_char c = true.
Proof.
  unfold verbatim_char, control_char, surrogate, xml_char.
  intros H. apply andb_prop in H as [Hx Hcr].
  rewrite Hx. apply negb_true_iff in Hcr. rewrite Hcr.
  apply N.eqb_neq in Hcr.
  repeat match type of Hx with
    | context [?a =? ?b] => destruct (N.eqb_spec a b)
    | context [?a <=? ?b] => destruct (N.leb_spec a b)
    end; cbn in Hx; try discriminate;
  repeat match goal with
    | |- context [?a =? ?b] => destruct (N.eqb_spec a b)
    | |- context [?a <=? ?b] => destruct (N.leb_spec a b)
    | |- context [?a <? ?b] => destruct (N.ltb_spec a b)
    end; cbn; try done; lia.
Qed.

Lemma replace_crlf_verbatim (text : pystr) :
  verbatim text = true -> replace_crlf text = text.
Proof.
  induction text as [|c text IH]; [done|].
  cbn [verbatim forallb]. intros H. apply andb_prop in H as [Hc H].
  apply verbatim_char_spec in Hc as (_ & _ & Hc & _).
  cbn [replace_crlf]. destruct text as [|d text]; [done|].
  rewrite Hc. cbn [andb]. by rewrite (IH H).
Qed.

Lemma replace_cr_verbatim (text : pystr) :
  verbatim text = true -> replace_cr text = text.
Proof.
  induction text as [|c text IH]; [done|].
  cbn [verbatim forallb]. intros H. apply andb_prop in H as [Hc H].
  apply verbatim_char_spec in Hc as (_ & _ & Hc & _).
  unfold replace_cr in *. cbn [List.map]. by rewrite Hc, (IH H).
Qed.

Lemma existsb_verbatim (f : N -> bool) (text : pystr) :
  (forall c, verbatim_char c = true -> f c = false) ->
  verbatim text = true -> existsb f text = false.
Proof.
  intros Hf. induction text as [|c text IH]; [done|].
  cbn [verbatim forallb existsb]. intros H. apply andb_prop in H as [Hc H].
  by rewrite (Hf c Hc), (IH H).
Qed.

(** [_escape] returns verbatim text as it is. *)
Lemma escape_verbatim (text : pystr) :
  verbatim text = true -> escape text = Ok text.
Proof.
  intros H. unfold escape.
  assert (H1 : existsb control_char text = false).
  { apply existsb_verbatim; [|done].
    intros c Hc. by apply verbatim_char_spec in Hc as (? & _). }
  assert (H2 : existsb surrogate text = false).
  { apply existsb_verbatim; [|done].
    intros c Hc. by apply verbatim_char_spec in Hc as (_ & ? & _). }
  by rewrite H1, H2, (replace_crlf_verbatim text H),
       (replace_cr_verbatim text H).
Qed.

Lemma verbatim_xml (text : pystr) :
  verbatim text = true -> forallb xml_char text = true.
Proof.
  induction text as [|c text IH]; [done|].
  cbn [verbatim forallb]. intros H. apply andb_prop in H as [Hc H].
  apply verbatim_char_spec in Hc as (_ & _ & _ & ->). by apply IH.
Qed.

(** The parser rebuilds the dict from its items. *)
Lemma build_list_to_map (items : list (pystr * pystr)) :
  NoDup (items.*1) -> build items = list_to_map items.
Proof.
  intros Hnd. unfold build.
  rewrite <- (fold_left_rev_right (fun kv m => <[fst kv := snd kv]> m)).
  change (fold_right (fun kv m => <[fst kv := snd kv]> m) ∅ (rev items))
    with (list_to_map (rev items) : gmap pystr pystr).
  symmetry. apply list_to_map_proper; [done|]. apply Permutation_rev.
Qed.

Lemma build_fmap (f : pystr -> pystr) (d : gmap pystr pystr) :
  build (prod_map id f <$> map_to_list d) = f <$> d.
Proof.
  rewrite build_list_to_map.
  - by rewrite list_to_map_fmap, list_to_map_to_list.
  - rewrite <- list_fmap_compose.
    rewrite (list_fmap_ext (fst ∘ prod_map id f) fst (map_to_list d))
      by (by intros i [k v]).
    apply NoDup_fst_map_to_list.
Qed.

(** Induction on a text two characters at a time, as [replace_crlf] reads
    it. *)
Lemma text_pair_ind (Q : pystr -> Prop) :
  Q [] -> (forall c, Q [c]) ->
  (forall c d r, Q r -> Q (d :: r) -> Q (c :: d :: r)) ->
  forall s, Q s.
Proof.
  intros H0 H1 H2 s.
  assert (H : Q s /\ forall c, Q (c :: s)); [|apply H].
  induction s as [|d r [IH IHc]]; [by split|].
  split; [apply IHc|]. intros c. apply H2; [done|apply IHc].
Qed.

Lemma replace_crlf_step (c d : N) (r : pystr) :
  replace_crlf (c :: d :: r)
  = if (c =? 13) && (d =? 10) then 10 :: replace_crlf r
    else c :: replace_crlf (d :: r).
Proof. done. Qed.

(** A property of characters that the two line ends have is had by a text
    exactly when its line ends are made line feeds. *)
Lemma forallb_line_feeds (P : N -> bool) (text : pystr) :
  P 10 = true -> P 13 = true ->
  forallb P (line_feeds text) = forallb P text.
Proof.
  intros H10 H13. unfold line_feeds.
  assert (Hcr : forall s, forallb P (replace_cr s) = forallb P s).
  { induction s as [|c s IH]; [done|]. unfold replace_cr in *.
    cbn [List.map forallb]. rewrite IH.
    destruct (N.eqb_spec c 13) as [->|]; [by rewrite H10, H13|done]. }
  rewrite Hcr. revert text. apply text_pair_ind; [done|done|].
  intros c d r IHr IHdr. rewrite replace_crlf_step.
  destruct ((c =? 13) && (d =? 10)) eqn:E.
  - apply andb_prop in E as [->%N.eqb_eq ->%N.eqb_eq].
    cbn [forallb]. by rewrite IHr, H10, H13.
  - cbn [forallb] in *. by rewrite IHdr.
Qed.

Lemma xml_char_spec (c : N) :
  xml_char c = true -> control_char c = false /\ surrogate c = false.
Proof.
  unfold control_char, surrogate, xml_char. intros Hx.
  repeat match type of Hx with
    | context [?a =? ?b] => destruct (N.eqb_spec a b)
    | context [?a <=? ?b] => destruct (N.leb_spec a b)
    end; cbn in Hx; try discriminate;
  repeat match goal with
    | |- context [?a =? ?b] => destruct (N.eqb_spec a b)
    | |- context [?a <=? ?b] => destruct (N.leb_spec a b)
    | |- context [?a <? ?b] => destruct (N.ltb_spec a b)
    end; cbn; try done; lia.
Qed.

Lemma existsb_readable (f : N -> bool) (text : pystr) :
  (forall c, xml_char c = true -> f c = false) ->
  readable text = true -> existsb f text = false.
Proof.
  intros Hf. induction text as [|c text IH]; [done|].
  cbn [readable forallb existsb]. intros H. apply andb_prop in H as [Hc H].
  by rewrite (Hf c Hc), (IH H).
Qed.

(** [_escape] accepts readable text and returns it with its line ends
    made line feeds, which is readable text again. *)
Lemma escape_readable (text : pystr) :
  readable text = true ->
  escape text = Ok (line_feeds text) /\ readable (line_feeds text) = true.
Proof.
  intros H. unfold escape.
  assert (H1 : existsb control_char text = false).
  { apply existsb_readable; [|done].
    intros c Hc. by apply xml_char_spec in Hc as [? _]. }
  assert (H2 : existsb surrogate text = false).
  { apply existsb_readable; [|done].
    intros c Hc. by apply xml_char_spec in Hc as [_ ?]. }
  rewrite H1, H2. split; [done|].
  unfold readable. by rewrite forallb_line_feeds.
Qed.

Lemma line_feeds_verbatim (text : pystr) :
  verbatim text = true -> line_feeds text = text.
Proof.
  intros H. unfold line_feeds.
  by rewrite (replace_crlf_verbatim text H), (replace_cr_verbatim text H).
Qed.

Lemma write_items_keeps (items : list (pystr * pystr)) :
  forallb (fun kv => verbatim (fst kv) && readable (snd kv)) items = true ->
  write_items items = Ok (prod_map id line_feeds <$> items)
  /\ well_formed (prod_map id line_feeds <$> items) = true.
Proof.
  induction items as [|[k v] items IH]; [done|].
  cbn [forallb fst snd write_items well_formed fmap list_fmap prod_map].
  intros H. apply andb_prop in H as [Hkv H].
  apply andb_prop in Hkv as [Hk Hv].
  destruct (IH H) as [-> Hwf].
  destruct (escape_readable v Hv) as [-> Hv'].
  rewrite (escape_verbatim k Hk).
  split; [done|]. unfold well_formed, readable in *.
  cbn [id fst snd]. by rewrite (verbatim_xml k Hk), Hv', Hwf.
Qed.

(** [plistlib.load] after [plistlib.dump]: the dict comes back with the
    line ends of its texts made line feeds. *)
Lemma load_dump (d : gmap pystr pystr) :
  keeps_names d = true ->
  exists doc, dump d = Ok doc /\ load (Some doc) = Ok (line_feeds <$> d).
Proof.
  intros H. unfold keeps_names in H.
  destruct (write_items_keeps _ H) as [Hw Hwf].
  exists (Complete (prod_map id line_feeds <$> map_to_list d)).
  unfold dump, load. by rewrite Hw, Hwf, build_fmap.
Qed.

End PlistFacts.

(** The decoder does not see line ends. *)
Module Base64Lines.
Import Base64.

Lemma a2b_loop_skip (c : N) (q l p : N) (s : list N) :
  c = 10 \/ c = 13 -> a2b_loop q l p (c :: s) = a2b_loop q l p s.
Proof.
  intros [-> | ->]; cbn [a2b_loop].
  - change (10 =? BASE64_PAD) with false. by change (a2b 10) with (@None N).
  - change (13 =? BASE64_PAD) with false. by change (a2b 13) with (@None N).
Qed.

Lemma a2b_loop_cons_ext (s1 s2 : list N) :
  (forall q l p, a2b_loop q l p s1 = a2b_loop q l p s2) ->
  forall c q l p, a2b_loop q l p (c :: s1) = a2b_loop q l p (c :: s2).
Proof.
  intros H c q l p. cbn [a2b_loop].
  destruct (c =? BASE64_PAD); [by rewrite H|].
  destruct (a2b c) as [v|]; [|apply H].
  repeat match goal with |- context [if ?b then _ else _] => destruct b end;
    by rewrite H.
Qed.

Lemma a2b_loop_line_feeds (text : pystr) :
  forall q l p, a2b_loop q l p (line_feeds text) = a2b_loop q l p text.
Proof.
  unfold line_feeds.
  assert (Hcr : forall s q l p,
             a2b_loop q l p (plistlib.replace_cr s) = a2b_loop q l p s).
  { induction s as [|c s IH]; [done|]. intros q l p.
    unfold plistlib.replace_cr in *. cbn [List.map].
    destruct (N.eqb_spec c 13) as [->|].
    - rewrite !a2b_loop_skip by auto. apply IH.
    - by apply a2b_loop_cons_ext. }
  intros q l p. rewrite Hcr. revert q l p.
  pattern text. apply PlistFacts.text_pair_ind; [done|done|].
  intros c d r IHr IHdr q l p. rewrite PlistFacts.replace_crlf_step.
  destruct ((c =? 13) && (d =? 10)) eqn:E.
  - apply andb_prop in E as [->%N.eqb_eq ->%N.eqb_eq].
    rewrite !a2b_loop_skip by auto. apply IHr.
  - by apply a2b_loop_cons_ext.
Qed.

(** A text decodes to the same bytes with its line ends made line feeds.
    *)
Lemma b64decode_line_feeds (text : pystr) :
  b64decode (line_feeds text) = b64decode text.
Proof.
  unfold b64decode, a2b_base64.
  rewrite (PlistFacts.forallb_line_feeds (fun c => c <? 128)) by done.
  by rewrite a2b_loop_line_feeds.
Qed.

End Base64Lines.

Lemma storable_spec (d : gmap pystr pystr) :
  storable d = true
  <-> forall k v, d !! k = Some v -> verbatim k = true /\ verbatim v = true.
Proof.
  unfold storable. rewrite forallb_forall. split.
  - intros H k v Hkv.
    apply elem_of_map_to_list, list_elem_of_In in Hkv.
    apply H in Hkv. cbn [fst snd] in Hkv. by apply andb_prop in Hkv.
  - intros H [k v] Hin. apply list_elem_of_In, elem_of_map_to_list in Hin.
    destruct (H k v Hin) as [Hk Hv]. cbn [fst snd]. by rewrite Hk, Hv.
Qed.

(** A storable dict keeps its names, and its texts have no line ends to
    change. *)
Lemma storable_keeps_names (d : gmap pystr pystr) :
  storable d = true -> keeps_names d = true /\ line_feeds <$> d = d.
Proof.
  intros H. split.
  - unfold storable, keeps_names in *. rewrite forallb_forall in *.
    intros kv Hin. apply H in Hin. apply andb_prop in Hin as [-> Hv].
    unfold readable. by rewrite (PlistFacts.verbatim_xml _ Hv).
  - apply map_eq. intros k. rewrite lookup_fmap.
    destruct (d !! k) as [v|] eqn:Hk; [|done]. cbn.
    apply (storable_spec d) in Hk as [_ Hv]; [|done].
    by rewrite (PlistFacts.line_feeds_verbatim v Hv).
Qed.

(** ** Saving, then loading *)

(** When the system does not refuse the path and the dict can be dumped,
    the [try] block of [save_plist] writes the document. *)
Lemma save_plist_to_writes (w : world) (path : pystr) (st : window)
  (doc : plistlib.document) :
  refused w path = false -> plistlib.dump (audio_data st) = Ok doc ->
  snd (save_plist_to w path st) = showMessage StatusSaved (set_modified false st)
  /\ open_rb (fst (save_plist_to w path st)) path = Ok (Some doc).
Proof.
  intros Href Hdoc. unfold save_plist_to.
  destruct (files w !! path) as [f|] eqn:Hf.
  - destruct (Z.land (st_mode f) 128 =? 0)%Z eqn:Hbit.
    + unfold chmod. rewrite Hf, Href.
      unfold open_wb. cbn [refused with_files files]. rewrite Href.
      rewrite lookup_insert_eq. cbn [st_mode contents].
      assert (Hset : (Z.land (Z.lor (st_mode f) 128) 128 =? 0)%Z = false).
      { apply Z.eqb_neq. apply Z.eqb_eq in Hbit.
        rewrite Z.land_lor_distr_l, Hbit. by rewrite Z.land_diag. }
      rewrite Hset, Hdoc. split; [done|]. cbn [fst].
      unfold write_all, open_rb. cbn [files with_files].
      rewrite lookup_insert_eq. cbn [files with_files].
      by rewrite lookup_insert_eq.
    + unfold open_wb. rewrite Href, Hf, Hbit, Hdoc. split; [done|]. cbn [fst].
      unfold write_all, open_rb. cbn [files with_files].
      rewrite lookup_insert_eq. cbn [files with_files].
      by rewrite lookup_insert_eq.
  - unfold open_wb. rewrite Href, Hf, Hdoc. split; [done|]. cbn [fst].
    unfold write_all, open_rb. cbn [files with_files].
    rewrite lookup_insert_eq. cbn [files with_files].
    by rewrite lookup_insert_eq.
Qed.

(** C7, as the code has it. For a store whose names are verbatim text
    (legal XML characters, no carriage return) and whose stored texts are
    readable (legal XML characters), and a path that the system lets the
    program write: [save_plist] succeeds, and [load_plist] of the same
    path, into any window, then succeeds too (it shows no error, and the
    status bar counts the entries) and gives a dict with the same names
    and, for every name, the same payload, with the flag clear and the
    path set. The dict itself is equal to the saved one when the stored
    texts are verbatim too (as base64 text is). *)
Theorem save_then_load (w : world) (st other : window)
  (path chosen : pystr) :
  plist_path st = Some path -> path <> [] ->
  refused w path = false -> keeps_names (audio_data st) = true ->
  let saved := save_plist w chosen st in
  let loaded := load_plist (fst saved) path other in
  snd saved = showMessage StatusSaved (set_modified false st)
  /\ parses_to (fst saved) path (audio_data loaded)
  /\ loaded
     = showMessage (StatusLoaded (size (audio_data st)))
         (set_modified false
            (set_plist_path (Some path)
               (set_audio_data (audio_data loaded) other)))
  /\ dom (audio_data loaded) = dom (audio_data st)
  /\ (forall name, get loaded name = get st name)
  /\ modified loaded = false
  /\ plist_path loaded = Some path
  /\ messages loaded = messages other
  /\ (storable (audio_data st) = true -> audio_data loaded = audio_data st).
Proof.
  intros Hpath Hne Href Hst. cbv zeta.
  assert (Hsave : save_plist w chosen st = save_plist_to w path st).
  { unfold save_plist. rewrite Hpath. by destruct path. }
  rewrite Hsave. clear Hsave.
  destruct (PlistFacts.load_dump _ Hst) as (doc & Hdump & Hload).
  destruct (save_plist_to_writes w path st doc Href Hdump) as [Hst' Hfile].
  rewrite Hst'. unfold load_plist, parses_to. rewrite Hfile, Hload.
  cbn [modified audio_data plist_path messages showMessage set_modified
         set_plist_path set_audio_data].
  split; [done|]. split; [eauto|].
  split; [by rewrite map_size_fmap|].
  split; [apply dom_fmap_L|].
  split; [|split; [done|split; [done|split; [done|]]]].
  - intros name. unfold get.
    cbn [modified audio_data plist_path showMessage set_modified
           set_plist_path set_audio_data].
    rewrite lookup_fmap. destruct (audio_data st !! name) as [text|]; [|done].
    cbn. by rewrite Base64Lines.b64decode_line_feeds.
  - intros Hs. by apply storable_keeps_names in Hs as [_ ->].
Qed.

(** The statement of C7 for the container of the scenario, saved to a
    fresh file and loaded into a window that has loaded nothing yet. *)
Lemma save_then_load_witness :
  let saved := save_plist Examples.empty_disk [] Examples.one_entry_changed in
  get (load_plist (fst saved) Examples.voices_plist Examples.fresh)
    Examples.greeting
  = get Examples.one_entry_changed Examples.greeting.
Proof.
  cbv zeta.
  refine (proj1 (proj2 (proj2 (proj2 (proj2
            (save_then_load Examples.empty_disk Examples.one_entry_changed
               Examples.fresh Examples.voices_plist [] _ _ _ _)))))
            Examples.greeting).
  - reflexivity.
  - vm_compute. discriminate.
  - reflexivity.
  - vm_compute. reflexivity.
Defined.

(** C7 as stated fails on the code, in two ways. A name with a carriage
    return in it is written with a line feed in its place: [save_plist]
    succeeds and [load_plist] succeeds, but the name is not found, and the
    set of names is another one. A name with the noncharacter U+FFFF in it
    is written as it is: [save_plist] succeeds, and [load_plist] fails on
    the file, the parser rejecting the character. *)
Lemma save_then_load_counterexample :
  let st := Examples.carriage_return_entry in
  let saved := save_plist Examples.empty_disk [] st in
  let loaded := load_plist (fst saved) Examples.voices_plist Examples.fresh in
  let st2 := Examples.noncharacter_entry in
  let saved2 := save_plist Examples.empty_disk [] st2 in
  (snd saved = showMessage StatusSaved (set_modified false st)
   /\ messages loaded = []
   /\ get st Examples.two_lines = Payload Examples.B
   /\ get loaded Examples.two_lines = NotFound
   /\ dom (audio_data loaded) <> dom (audio_data st))
  /\ (snd saved2 = showMessage StatusSaved (set_modified false st2)
      /\ get st2 Examples.noncharacter = Payload Examples.B
      /\ load_plist (fst saved2) Examples.voices_plist Examples.fresh
         = message_box (LoadFailed ExpatError) Examples.fresh).
Proof.
  cbv zeta. split.
  - split; [vm_compute; reflexivity|].
    split; [vm_compute; reflexivity|].
    split; [vm_compute; reflexivity|].
    split; [vm_compute; reflexivity|].
    intros E.
    assert (H : Examples.two_lines
                ∈ dom (audio_data Examples.carriage_return_entry)).
    { apply elem_of_dom. eexists. vm_compute. reflexivity. }
    rewrite <- E in H. apply elem_of_dom in H as [v H].
    vm_compute in H. discriminate.
  - split; [vm_compute; reflexivity|].
    split; [vm_compute; reflexivity|].
    vm_compute. reflexivity.
Qed.

(** ** The conversion queue *)

Lemma fst_emit {A} (s : signal) (r : A * list signal) : fst (emit s r) = fst r.
Proof. done. Qed.

Lemma snd_emit {A} (s : signal) (r : A * list signal) :
  snd (emit s r) = s :: snd r.
Proof. done. Qed.

(** The window of the slots, through the steps of the progress bar. *)
Lemma convert_queue_progress_step (st : window) :
  convert_queue (progress_step st) = convert_queue st.
Proof. apply setValue_fields. Qed.




(** The queue never clears the flag. *)
Lemma convert_loop_keeps_flag (u : user) (queue : list pystr) :
  forall st, modified st = true ->
             modified (fst (convert_loop u queue st)) = true.
Proof.
  induction queue as [|file_path rest IH]; intros st Hm; [done|].
  cbn [convert_loop].
  set (asked := set_convert_queue rest st).
  assert (Hstep : modified (progress_step asked) = true)
    by (by rewrite modified_progress_step).
  destruct (negb _ || negb _); [rewrite fst_emit; by apply IH|].
  destruct (bool_decide _ && negb _); [rewrite fst_emit; by apply IH|].
  assert (Herr : forall name st0,
             modified st0 = true -> modified (on_convert_error name st0) = true).
  { intros name st0 H. unfold on_convert_error.
    by rewrite modified_progress_step. }
  assert (Hfin : forall name p st0,
             modified (on_convert_finished name p st0) = true).
  { intros name p st0. unfold on_convert_finished.
    by rewrite modified_progress_step. }
  destruct (encoded u _ file_path) as [silk_data|].
  - destruct (truthy silk_data); rewrite fst_emit; apply IH;
      [apply Hfin | by apply Herr].
  - rewrite fst_emit. apply IH. by apply Herr.
Qed.

(** The batch itself is handed over by [on_files_dropped], which starts
    a new, empty store whenever the window has no file path: entries added
    before and not yet saved to a file are dropped there, before the first
    job runs. *)
Lemma on_files_dropped_without_path (u : user) (w : world)
  (dropped : list pystr) (f : pystr) (fs : list pystr) (st : window) :
  List.find is_plist dropped = None ->
  List.filter (supported u) dropped = f :: fs ->
  no_path st = true ->
  on_files_dropped u w dropped st
  = convert_next u
      (set_convert_queue (f :: fs)
         (set_progress 0 (Z.of_nat (length (f :: fs))) true
            (set_modified true (set_plist_path None (set_audio_data ∅ st))))).
Proof.
  intros Hfind Hvalid Hpath. unfold on_files_dropped.
  by rewrite Hfind, Hvalid, Hpath.
Qed.

(** ** The flag *)

Lemma rename_selected_flag (selected : option pystr) (new_name : pystr)
  (ok : bool) (st : window) :
  let st' := fst (rename_selected selected new_name ok st) in
  (audio_data st' = audio_data st /\ modified st' = modified st)
  \/ modified st' = true.
Proof.
  cbv zeta. unfold rename_selected.
  destruct selected as [old_name|]; [|by left].
  destruct (ok && truthy new_name && negb _); [|by left].
  destruct (bool_decide _); [by left|].
  destruct (audio_data st !! old_name); [by right | by left].
Qed.

Lemma delete_selected_flag (names : list pystr) (yes : bool) (st : window) :
  snd (delete_selected names yes st) = None ->
  fst (delete_selected names yes st) = st
  \/ modified (fst (delete_selected names yes st)) = true.
Proof.
  unfold delete_selected. destruct names as [|name names]; [by left|].
  destruct yes; [|by left].
  destruct (del_each (name :: names) (audio_data st)) as [d []];
    [by right | done].
Qed.

(** C5, as the code has it. Storing a conversion result sets the flag;
    a rename or a delete that changes the dict sets it. Whatever the slot,
    the flag goes from set to clear only when [save_plist] has written the
    dict to the file of the store, or when [load_plist] has replaced the
    dict by the one of a file. *)
Theorem modified_flag (u : user) (w : world) (o : op) (st : window) :
  (forall name silk_data,
      modified (on_convert_finished name silk_data st) = true)
  /\ (forall selected new_name ok,
        audio_data (fst (rename_selected selected new_name ok st))
        <> audio_data st ->
        modified (fst (rename_selected selected new_name ok st)) = true)
  /\ (forall names yes,
        snd (delete_selected names yes st) = None ->
        audio_data (fst (delete_selected names yes st)) <> audio_data st ->
        modified (fst (delete_selected names yes st)) = true)
  /\ (modified st = true -> modified (snd (step u w o st)) = false ->
      (exists chosen path,
          (o = OpSave chosen \/ o = OpSaveAs chosen)
          /\ plist_path (snd (step u w o st)) = Some path
          /\ holds_dump (fst (step u w o st)) path (audio_data st))
      \/ (exists file_path,
            (o = OpLoad file_path
             \/ exists dropped, o = OpFilesDropped dropped
                                /\ List.find is_plist dropped = Some file_path)
            /\ parses_to w file_path (audio_data (snd (step u w o st))))).
Proof.
  split; [|split; [|split]].
  - intros name silk_data. unfold on_convert_finished.
    by rewrite modified_progress_step.
  - intros selected new_name ok Hne.
    destruct (rename_selected_flag selected new_name ok st) as [[H _]|H];
      [by destruct Hne | exact H].
  - intros names yes Hnone Hne.
    destruct (delete_selected_flag names yes st Hnone) as [H|H];
      [rewrite H in Hne; by destruct Hne | exact H].
  - intros Hdirty Hclear. destruct o as
      [file_path | dropped | name silk_data | name | selected new_name ok
      | names yes | chosen | chosen]; cbn [step snd fst] in *.
    + right. exists file_path. split; [by left|].
      destruct (load_plist_cases w file_path st) as [(d & Hp & E)|(e & _ & E)];
        rewrite E in *; [exact Hp | cbn in Hclear; congruence].
    + unfold on_files_dropped in *.
      destruct (List.find is_plist dropped) as [file_path|] eqn:Hfind.
      * right. exists file_path. split; [right; eauto|]. cbn [fst] in *.
        destruct (load_plist_cases w file_path st)
          as [(d & Hp & E)|(e & _ & E)];
          rewrite E in *; [exact Hp | cbn in Hclear; congruence].
      * exfalso. destruct (List.filter (supported u) dropped) as [|f fs].
        { cbn in Hclear. congruence. }
        unfold convert_next in Hclear.
        rewrite convert_loop_keeps_flag in Hclear; [done|].
        by destruct (no_path st).
    + exfalso. unfold convert_next in Hclear.
      rewrite convert_loop_keeps_flag in Hclear; [done|].
      unfold on_convert_finished. by rewrite modified_progress_step.
    + exfalso. unfold convert_next in Hclear.
      rewrite convert_loop_keeps_flag in Hclear; [done|].
      unfold on_convert_error. by rewrite modified_progress_step.
    + exfalso.
      destruct (rename_selected_flag selected new_name ok st) as [[_ H]|H];
        congruence.
    + exfalso. unfold delete_selected in Hclear.
      destruct names as [|name names]; [cbn in Hclear; congruence|].
      destruct yes; [|cbn in Hclear; congruence].
      destruct (del_each (name :: names) (audio_data st)) as [d []];
        cbn in Hclear; congruence.
    + left. destruct (save_plist_clears_flag w chosen st Hdirty Hclear)
        as (path & Hp & Hh & _).
      exists chosen, path. eauto.
    + left. unfold save_plist_as in *.
      destruct (truthy chosen); [|cbn in Hclear; congruence].
      destruct (save_plist_clears_flag w chosen
                  (set_plist_path (Some chosen) st) Hdirty Hclear)
        as (path & Hp & Hh & _).
      exists chosen, path. eauto.
Qed.

(** The statement of C5 for a store with a change that is saved. *)
Lemma modified_flag_witness :
  exists path,
    plist_path (snd (step Examples.cancels Examples.disk (OpSave [])
                       Examples.one_entry_changed)) = Some path
    /\ holds_dump (fst (step Examples.cancels Examples.disk (OpSave [])
                          Examples.one_entry_changed)) path
         (audio_data Examples.one_entry_changed).
Proof.
  destruct (proj2 (proj2 (proj2
              (modified_flag Examples.cancels Examples.disk (OpSave [])
                 Examples.one_entry_changed))))
    as [(chosen & path & _ & Hp & Hh)|(file_path & [H|(dropped & H & _)] & _)].
  - reflexivity.
  - vm_compute. reflexivity.
  - exists path. split; [exact Hp | exact Hh].
  - discriminate H.
  - discriminate H.
Defined.

(** C5 as stated fails on the code. Loading a file into a store that has a
    change not yet saved clears the flag, and nothing is saved: the change
    is gone and the file is as it was. *)
Lemma load_clears_flag_counterexample :
  let st := on_convert_finished Examples.hello Examples.B Examples.one_entry in
  let after := step Examples.cancels Examples.disk
                 (OpLoad Examples.voices_plist) st in
  modified st = true
  /\ modified (snd after) = false
  /\ fst after = Examples.disk
  /\ get st Examples.hello = Payload Examples.B
  /\ get (snd after) Examples.hello = NotFound.
Proof.
  cbv zeta. repeat split; vm_compute; reflexivity.
Qed.

(** ** The temporary files of the codec bridge *)
Module AudioConverterFacts.
Import AudioConverter.

(** Two files that were created and removed again leave the directory as
    it was. *)
Lemma created_then_removed `{Countable A} (p q : A) (d : gset A) :
  p ∉ d -> q ∉ d -> (({[q]} ∪ ({[p]} ∪ d)) ∖ {[p]}) ∖ {[q]} = d.
Proof.
  intros Hp Hq. apply set_eq. intros x.
  rewrite !elem_of_difference, !elem_of_union, !elem_of_singleton.
  split.
  - intros [[[->|[->|Hx]] Hnp] Hnq]; done.
  - intros Hx. split; [split|]; [by right; right | by intros -> | by intros ->].
Qed.

(** [convert_silk_to_audio] removes its two temporary files on every path:
    the directory is afterwards as it was before the call. *)
Lemma convert_silk_to_audio_cleans (t : tools) (stem1 stem2 : N) (d : tmpdir) :
  (stem1, silk) ∉ d -> (stem2, pcm) ∉ d ->
  snd (convert_silk_to_audio t stem1 stem2 d) = d.
Proof.
  intros H1 H2.
  cbv [convert_silk_to_audio try_except try_finally bind create lift ret
         unlink].
  assert (Hin1 : (stem1, silk)
                 ∈ ({[(stem2, pcm)]} ∪ ({[(stem1, silk)]} ∪ d) : tmpdir)).
  { apply elem_of_union_r, elem_of_union_l. by apply elem_of_singleton. }
  assert (Hin2 : (stem2, pcm)
                 ∈ (({[(stem2, pcm)]} ∪ ({[(stem1, silk)]} ∪ d))
                      ∖ {[(stem1, silk)]} : tmpdir)).
  { apply elem_of_difference. split.
    - apply elem_of_union_l. by apply elem_of_singleton.
    - rewrite elem_of_singleton. discriminate. }
  assert (Hd : (({[(stem2, pcm)]} ∪ ({[(stem1, silk)]} ∪ d))
                  ∖ {[(stem1, silk)]}) ∖ {[(stem2, pcm)]} = d)
    by (by apply created_then_removed).
  destruct (pilk_decode t) as [duration|e1];
    [destruct (from_raw t) as [[]|e2];
       [destruct (export t) as [[]|e3]|]|];
    rewrite (bool_decide_eq_true_2 _ Hin1), (bool_decide_eq_true_2 _ Hin2);
    exact Hd.
Qed.

(** [audio_to_silk] removes its temporary files when every tool succeeds. *)
Lemma audio_to_silk_success (t : tools) (stem : N) (d : tmpdir)
  (silk_data : pybytes) :
  (stem, pcm) ∉ d -> (stem, silk) ∉ d ->
  ffmpeg_found t = true -> run_ffmpeg t = Ok 0%Z ->
  pilk_encode t = Ok silk_data ->
  audio_to_silk t stem d = (Ok (Some silk_data), d).
Proof.
  intros H1 H2 Hf Hr He.
  unfold audio_to_silk, try_except, bind, create, lift, ret, unlink,
    replace_suffix.
  rewrite Hf, Hr, He. cbn [negb fst Z.eqb].
  assert (Hin1 : (stem, pcm)
                 ∈ ({[(stem, silk)]} ∪ ({[(stem, pcm)]} ∪ d) : tmpdir)).
  { apply elem_of_union_r, elem_of_union_l. by apply elem_of_singleton. }
  assert (Hin2 : (stem, silk)
                 ∈ (({[(stem, silk)]} ∪ ({[(stem, pcm)]} ∪ d))
                      ∖ {[(stem, pcm)]} : tmpdir)).
  { apply elem_of_difference. split.
    - apply elem_of_union_l. by apply elem_of_singleton.
    - rewrite elem_of_singleton. discriminate. }
  rewrite (bool_decide_eq_true_2 _ Hin1), (bool_decide_eq_true_2 _ Hin2).
  f_equal. by apply created_then_removed.
Qed.

(** When ffmpeg returns a code other than 0, [audio_to_silk] returns [None]
    and the PCM file it created stays in the temporary directory. *)
Lemma audio_to_silk_ffmpeg_failure (t : tools) (stem : N) (d : tmpdir)
  (returncode : Z) :
  ffmpeg_found t = true -> run_ffmpeg t = Ok returncode ->
  returncode <> 0%Z ->
  audio_to_silk t stem d = (Ok None, {[(stem, pcm)]} ∪ d).
Proof.
  intros Hf Hr Hne.
  unfold audio_to_silk, try_except, bind, create, lift, ret.
  rewrite Hf, Hr. cbn [negb].
  apply Z.eqb_neq in Hne. by rewrite Hne.
Qed.

(** The same when the encoder raises. *)
Lemma audio_to_silk_encoder_failure (t : tools) (stem : N) (d : tmpdir)
  (e : exn) :
  ffmpeg_found t = true -> run_ffmpeg t = Ok 0%Z -> pilk_encode t = Raise e ->
  audio_to_silk t stem d = (Ok None, {[(stem, pcm)]} ∪ d).
Proof.
  intros Hf Hr He.
  unfold audio_to_silk, try_except, bind, create, lift, ret.
  by rewrite Hf, Hr, He.
Qed.

(** When the decoder raises, [silk_to_wav] returns [None] and the SILK file
    it wrote stays in the temporary directory. *)
Lemma silk_to_wav_decoder_failure (t : tools) (stem : N) (d : tmpdir)
  (e : exn) :
  pilk_decode t = Raise e ->
  silk_to_wav t stem d = (Ok None, {[(stem, silk)]} ∪ d).
Proof.
  intros He. unfold silk_to_wav, try_except, bind, create, lift, ret.
  by rewrite He.
Qed.

(** C4 fails on the code. With an empty temporary directory and an input
    that ffmpeg rejects (return code 1), [audio_to_silk] returns [None] and
    leaves its PCM file behind, while [convert_silk_to_audio], with the same
    tools failing, leaves nothing. *)
Theorem audio_to_silk_leaves_pcm_file :
  audio_to_silk Examples.ffmpeg_fails 7 ∅ = (Ok None, {[(7, pcm)]})
  /\ (7, pcm) ∈ snd (audio_to_silk Examples.ffmpeg_fails 7 ∅)
  /\ snd (convert_silk_to_audio Examples.ffmpeg_fails 7 8 ∅) = ∅.
Proof.
  split; [|split].
  - rewrite (audio_to_silk_ffmpeg_failure Examples.ffmpeg_fails 7 ∅ 1) by done.
    by rewrite (right_id_L ∅ (∪)).
  - rewrite (audio_to_silk_ffmpeg_failure Examples.ffmpeg_fails 7 ∅ 1) by done.
    set_solver.
  - apply convert_silk_to_audio_cleans; set_solver.
Qed.

End AudioConverterFacts.

(** * More properties of the program *)

(** ** The slots of the queue *)




(** [convert_loop] is the run in which the slots follow each other: the
    call of [convert_next] up to the thread it starts, the signal of that
    thread, the slot of the signal, and so on from the queue that is
    left. *)
Lemma convert_loop_chains_slots (u : user) (queue : list pystr) :
  forall st,
    convert_loop u queue st
    = let o := Slot.convert_loop u queue st in
      match Slot.started o with
      | None => (Slot.after o, skipped <$> Slot.skips o)
      | Some t =>
          let s := Slot.run (encoded u (Slot.after o)) t in
          let r := convert_loop u (convert_queue (Slot.after o))
                     (delivered s (Slot.after o)) in
          (fst r, (skipped <$> Slot.skips o) ++ signal_of s :: snd r)
      end.
Proof.
  induction queue as [|f rest IH]; intros st; [done|].
  cbn [convert_loop Slot.convert_loop].
  set (asked := set_convert_queue rest st).
  assert (Hskip : emit (skipped f) (convert_loop u rest (progress_step asked))
                  = let o := Slot.skip f
                               (Slot.convert_loop u rest (progress_step asked))
                    in
                    match Slot.started o with
                    | None => (Slot.after o, skipped <$> Slot.skips o)
                    | Some t =>
                        let s := Slot.run (encoded u (Slot.after o)) t in
                        let r := convert_loop u (convert_queue (Slot.after o))
                                   (delivered s (Slot.after o)) in
                        (fst r,
                         (skipped <$> Slot.skips o) ++ signal_of s :: snd r)
                    end).
  { rewrite IH. cbv zeta.
    cbn [Slot.skip Slot.after Slot.skips Slot.started].
    by destruct (Slot.started _). }
  destruct (negb _ || negb _); [exact Hskip|].
  destruct (bool_decide _ && negb _); [exact Hskip|].
  cbv zeta. cbn [Slot.after Slot.skips Slot.started].
  unfold Slot.run. cbn [Slot.file_path Slot.name].
  cbn [convert_queue showMessage]. cbn [asked set_convert_queue convert_queue].
  destruct (encoded u _ f) as [silk_data|]; [|done].
  by destruct (truthy silk_data).
Qed.








(** ** The codec bridge when the tools succeed *)
Module BridgeFacts.
Import AudioConverter Bridge.

Lemma bind_ok {A B} (m : M A) (k : A -> M B) (d d' : tmpdir) (a : A) :
  m d = (Ok a, d') -> bind m k d = k a d'.
Proof. intros E. unfold bind. by rewrite E. Qed.

Lemma bind_raise {A B} (m : M A) (k : A -> M B) (d d' : tmpdir) (e : exn) :
  m d = (Raise e, d') -> bind m k d = (Raise e, d').
Proof. intros E. unfold bind. by rewrite E. Qed.

Lemma unlink_there (p : path) (d : tmpdir) :
  p ∈ d -> unlink p d = (Ok tt, d ∖ {[p]}).
Proof. intros Hp. unfold unlink. by rewrite bool_decide_eq_true_2. Qed.

(** A file created and removed again, with another file created in
    between. *)
Lemma removed_under `{Countable A} (p q : A) (d : gset A) :
  p ∉ d -> p <> q -> ({[q]} ∪ ({[p]} ∪ d)) ∖ {[p]} = {[q]} ∪ d.
Proof.
  intros Hp Hpq. apply set_eq. intros x.
  rewrite elem_of_difference, !elem_of_union, !elem_of_singleton.
  split.
  - intros [[->|[->|Hx]] Hne]; [by left | done | by right].
  - intros [->|Hx]; [split; [by left | by intros ->]|].
    split; [by right; right | by intros ->].
Qed.

Lemma removed_alone `{Countable A} (p : A) (d : gset A) :
  p ∉ d -> ({[p]} ∪ d) ∖ {[p]} = d.
Proof.
  intros Hp. apply set_eq. intros x.
  rewrite elem_of_difference, elem_of_union, elem_of_singleton.
  split; [by intros [[->|Hx] Hne] | intros Hx].
  split; [by right | by intros ->].
Qed.

Lemma silk_to_wav_run (t : tools) (stem : N) (d : tmpdir) (duration : Z) :
  (stem, silk) ∉ d -> (stem, pcm) ∉ d ->
  pilk_decode t = Ok duration -> from_raw t = Ok tt -> export t = Ok tt ->
  silk_to_wav t stem d = (Ok (Some (stem, wav)), {[(stem, wav)]} ∪ d).
Proof.
  intros Hs Hp Hd Hf He.
  unfold silk_to_wav, try_except, replace_suffix. cbn [fst].
  unfold bind at 1, create at 1. unfold lift, bind at 1. rewrite Hd.
  unfold bind at 1, create at 1. unfold bind at 1. rewrite Hf.
  unfold bind at 1. rewrite He.
  unfold bind at 1, create at 1.
  rewrite (bind_ok (unlink (stem, silk)) _ _
             (({[(stem, wav)]} ∪ ({[(stem, pcm)]} ∪ ({[(stem, silk)]} ∪ d)))
                ∖ {[(stem, silk)]}) tt).
  2:{ apply unlink_there.
      apply elem_of_union_r, elem_of_union_r, elem_of_union_l.
      by apply elem_of_singleton. }
  assert (E1 : ({[(stem, wav)]} ∪ ({[(stem, pcm)]} ∪ ({[(stem, silk)]} ∪ d)))
                 ∖ {[(stem, silk)]}
               = {[(stem, pcm)]} ∪ ({[(stem, wav)]} ∪ d)).
  { apply set_eq. intros x.
    rewrite elem_of_difference, !elem_of_union, !elem_of_singleton.
    split.
    - intros [[->|[->|[->|Hx]]] Hne]; [by right; left | by left | done |].
      by right; right.
    - intros [->|[->|Hx]].
      + split; [by right; left | discriminate].
      + split; [by left | discriminate].
      + split; [by right; right; right | by intros ->]. }
  rewrite E1.
  rewrite (bind_ok (unlink (stem, pcm)) _ _
             (({[(stem, pcm)]} ∪ ({[(stem, wav)]} ∪ d)) ∖ {[(stem, pcm)]}) tt).
  2:{ apply unlink_there. apply elem_of_union_l. by apply elem_of_singleton. }
  unfold ret. f_equal. apply removed_alone.
  rewrite elem_of_union, elem_of_singleton. by intros [?|?].
Qed.

(** When the decoder and the two steps of pydub succeed, [silk_to_wav]
    returns the path of the WAV file and leaves exactly that file behind:
    the temporary directory holds the files it held before and the WAV
    file, and neither the SILK nor the PCM file. *)
Theorem silk_to_wav_success (t : tools) (stem : N) (d : tmpdir)
  (duration : Z) :
  (stem, silk) ∉ d -> (stem, pcm) ∉ d ->
  pilk_decode t = Ok duration -> from_raw t = Ok tt -> export t = Ok tt ->
  fst (silk_to_wav t stem d) = Ok (Some (stem, wav))
  /\ (forall p, p ∈ snd (silk_to_wav t stem d) <-> p = (stem, wav) \/ p ∈ d).
Proof.
  intros Hs Hp Hd Hf He.
  rewrite (silk_to_wav_run t stem d duration) by done.
  split; [done|]. intros p. cbn [snd].
  by rewrite elem_of_union, elem_of_singleton.
Qed.

(** The statement for tools that succeed and an empty directory. *)
Lemma silk_to_wav_success_witness :
  fst (silk_to_wav {| ffmpeg_found := true; run_ffmpeg := Ok 0%Z;
                      pilk_encode := Ok []; pilk_decode := Ok 0%Z;
                      from_raw := Ok tt; export := Ok tt |} 7 ∅)
  = Ok (Some (7, wav)).
Proof.
  refine (proj1 (silk_to_wav_success _ 7 ∅ 0 _ _ _ _ _)); try reflexivity;
    apply not_elem_of_empty.
Defined.

(** [silk_to_pcm] returns the path of the PCM file and leaves exactly that
    file behind when the decoder succeeds; when the decoder raises it
    returns [None] and the SILK file it wrote stays in the temporary
    directory. *)
Theorem silk_to_pcm_spec (t : tools) (stem : N) (d : tmpdir) :
  (stem, silk) ∉ d ->
  (forall duration, pilk_decode t = Ok duration ->
     silk_to_pcm t stem d = (Ok (Some (stem, pcm)), {[(stem, pcm)]} ∪ d))
  /\ (forall e, pilk_decode t = Raise e ->
        silk_to_pcm t stem d = (Ok None, {[(stem, silk)]} ∪ d)).
Proof.
  intros Hs. split.
  - intros duration Hd.
    unfold silk_to_pcm, try_except, replace_suffix. cbn [fst].
    unfold bind at 1, create at 1. unfold lift, bind at 1. rewrite Hd.
    unfold bind at 1, create at 1.
    rewrite (bind_ok (unlink (stem, silk)) _ _
               (({[(stem, pcm)]} ∪ ({[(stem, silk)]} ∪ d))
                  ∖ {[(stem, silk)]}) tt).
    2:{ apply unlink_there. apply elem_of_union_r, elem_of_union_l.
        by apply elem_of_singleton. }
    unfold ret. f_equal. by apply removed_under.
  - intros e He. unfold silk_to_pcm, try_except, bind, create, lift, ret.
    by rewrite He.
Qed.

(** The statement for an empty directory and a decoder that raises. *)
Lemma silk_to_pcm_spec_witness :
  silk_to_pcm {| ffmpeg_found := true; run_ffmpeg := Ok 0%Z;
                 pilk_encode := Ok []; pilk_decode := Raise ValueError;
                 from_raw := Ok tt; export := Ok tt |} 7 ∅
  = (Ok None, {[(7, silk)]} ∪ ∅).
Proof.
  refine (proj2 (silk_to_pcm_spec _ 7 ∅ _) ValueError _).
  - apply not_elem_of_empty.
  - reflexivity.
Defined.




End BridgeFacts.

(** ** Exporting one entry *)
Module ExportFacts.
Import AudioConverter Bridge.

Lemma get_Payload (st : window) (name : pystr) (p : pybytes) :
  get st name = Payload p ->
  exists text, audio_data st !! name = Some text
               /\ Base64.b64decode text = Some p.
Proof.
  unfold get. destruct (audio_data st !! name) as [text|]; [|done].
  destruct (Base64.b64decode text) as [q|] eqn:E; [|done].
  intros [= ->]. eauto.
Qed.

(** An entry exported to a [.silk] file, or an entry that is not SILK
    exported to any file, is written as it is: the file holds the very
    bytes that reading the entry gives. When the file cannot be opened
    nothing is written and the export fails. *)
Theorem export_single_raw (x : exporter) (stem : N) (ext name file_path : pystr)
  (show_message : bool) (st : window) (out : gmap pystr written)
  (tmp : tmpdir) (p : pybytes) :
  get st name = Payload p ->
  is_silk_ext ext = true \/ classify p = Opaque ->
  _export_single x stem ext name file_path show_message st out tmp
  = if writable x
    then (true, notify show_message (Exported file_path),
          <[file_path := Raw p]> out, tmp)
    else (false, notify show_message ExportFailed, out, tmp).
Proof.
  intros (text & Ht & Hp)%get_Payload Hraw.
  unfold _export_single. rewrite Ht, Hp.
  destruct (is_silk_ext ext); [done|].
  destruct Hraw as [?|Hraw]; [done|]. unfold classify in Hraw.
  by destruct (startswith SILK_MAGIC p).
Qed.

(** The statement for the entry of the example store, exported to a
    [.silk] file. *)
Lemma export_single_raw_witness :
  _export_single {| converter := Examples.ffmpeg_fails; from_wav := Ok tt;
                    export_file := Ok tt; writable := true |}
    7 (str ".silk") Examples.greeting (str "out/greeting.silk") false
    Examples.one_entry ∅ ∅
  = (true, None, <[str "out/greeting.silk" := Raw Examples.B]> ∅, ∅).
Proof.
  apply (export_single_raw
           {| converter := Examples.ffmpeg_fails; from_wav := Ok tt;
              export_file := Ok tt; writable := true |}).
  - vm_compute. reflexivity.
  - left. reflexivity.
Defined.

(** Exporting a name that the dict does not hold, or an entry whose text
    is not base64, fails: [_export_single] returns [False], nothing is
    written and no temporary file is made. *)
Theorem export_single_no_payload (x : exporter) (stem : N)
  (ext name file_path : pystr) (show_message : bool) (st : window)
  (out : gmap pystr written) (tmp : tmpdir) :
  get st name = NotFound \/ get st name = Undecodable ->
  _export_single x stem ext name file_path show_message st out tmp
  = (false, notify show_message ExportFailed, out, tmp).
Proof.
  unfold get, _export_single.
  destruct (audio_data st !! name) as [text|]; [|done].
  destruct (Base64.b64decode text); [|done]. by intros [|].
Qed.

(** The statement for a name that the example store does not hold. *)
Lemma export_single_no_payload_witness :
  _export_single {| converter := Examples.ffmpeg_fails; from_wav := Ok tt;
                    export_file := Ok tt; writable := true |}
    7 (str ".mp3") Examples.hello (str "out/hello.mp3") true
    Examples.one_entry ∅ ∅
  = (false, Some ExportFailed, ∅, ∅).
Proof.
  apply (export_single_no_payload
           {| converter := Examples.ffmpeg_fails; from_wav := Ok tt;
              export_file := Ok tt; writable := true |}).
  left. vm_compute. reflexivity.
Defined.

(** A SILK entry exported to another format, with every tool succeeding:
    the file is written in the format named by the extension, and the
    temporary directory is as before (the WAV file of [silk_to_wav]
    is removed again). *)
Theorem export_single_converted (x : exporter) (stem : N)
  (ext name file_path : pystr) (show_message : bool) (st : window)
  (out : gmap pystr written) (tmp : tmpdir) (p : pybytes) (duration : Z) :
  get st name = Payload p -> classify p = SpeechCodec ->
  is_silk_ext ext = false ->
  (stem, silk) ∉ tmp -> (stem, pcm) ∉ tmp -> (stem, wav) ∉ tmp ->
  pilk_decode (converter x) = Ok duration ->
  from_raw (converter x) = Ok tt -> export (converter x) = Ok tt ->
  from_wav x = Ok tt -> export_file x = Ok tt ->
  _export_single x stem ext name file_path show_message st out tmp
  = (true, notify show_message (Exported file_path),
     <[file_path := Encoded (tl ext)]> out, tmp).
Proof.
  intros (text & Ht & Hp)%get_Payload Hsilk Hext Hs Hpcm Hw Hd Hr He Hfw Hef.
  unfold _export_single. rewrite Ht, Hp, Hext.
  unfold classify in Hsilk.
  destruct (startswith SILK_MAGIC p); [|done].
  rewrite (BridgeFacts.silk_to_wav_run (converter x) stem tmp duration)
    by done.
  rewrite Hfw, Hef.
  rewrite BridgeFacts.unlink_there
    by (apply elem_of_union_l; by apply elem_of_singleton).
  by rewrite BridgeFacts.removed_alone.
Qed.

(** The statement for the entry of the example store exported to MP3. *)
Lemma export_single_converted_witness :
  _export_single
    {| converter := {| ffmpeg_found := true; run_ffmpeg := Ok 0%Z;
                       pilk_encode := Ok []; pilk_decode := Ok 40%Z;
                       from_raw := Ok tt; export := Ok tt |};
       from_wav := Ok tt; export_file := Ok tt; writable := true |}
    7 (str ".mp3") Examples.greeting (str "out/greeting.mp3") false
    Examples.one_entry ∅ ∅
  = (true, None, <[str "out/greeting.mp3" := Encoded (str "mp3")]> ∅, ∅).
Proof.
  apply (export_single_converted _ 7 (str ".mp3") Examples.greeting
           (str "out/greeting.mp3") false Examples.one_entry ∅ ∅
           Examples.B 40);
    try reflexivity; apply not_elem_of_empty.
Defined.

(** A SILK entry exported to another format when the decoder raises:
    [silk_to_wav] returns [None], and [_export_single] goes on to report
    the export as done and returns [True], although no file is written;
    the SILK file of [silk_to_wav] stays in the temporary directory. *)
Theorem export_single_decoder_fails (x : exporter) (stem : N)
  (ext name file_path : pystr) (show_message : bool) (st : window)
  (out : gmap pystr written) (tmp : tmpdir) (p : pybytes) (e : exn) :
  get st name = Payload p -> classify p = SpeechCodec ->
  is_silk_ext ext = false ->
  pilk_decode (converter x) = Raise e ->
  _export_single x stem ext name file_path show_message st out tmp
  = (true, notify show_message (Exported file_path), out,
     {[(stem, silk)]} ∪ tmp).
Proof.
  intros (text & Ht & Hp)%get_Payload Hsilk Hext Hd.
  unfold _export_single. rewrite Ht, Hp, Hext.
  unfold classify in Hsilk.
  destruct (startswith SILK_MAGIC p); [|done].
  by rewrite (AudioConverterFacts.silk_to_wav_decoder_failure
                (converter x) stem tmp e Hd).
Qed.

(** The statement for the entry of the example store and a decoder that
    raises. *)
Lemma export_single_decoder_fails_witness :
  fst (fst (fst
    (_export_single
       {| converter := {| ffmpeg_found := true; run_ffmpeg := Ok 0%Z;
                          pilk_encode := Ok [];
                          pilk_decode := Raise ValueError;
                          from_raw := Ok tt; export := Ok tt |};
          from_wav := Ok tt; export_file := Ok tt; writable := true |}
       7 (str ".mp3") Examples.greeting (str "out/greeting.mp3") true
       Examples.one_entry ∅ ∅))) = true.
Proof.
  rewrite (export_single_decoder_fails _ 7 (str ".mp3") Examples.greeting
             (str "out/greeting.mp3") true Examples.one_entry ∅ ∅
             Examples.B ValueError); reflexivity.
Defined.

End ExportFacts.

(** ** The command-line converter *)
Module CliFacts.
Import AudioConverter Cli.

(** One entry moves exactly one of the two counters by one. *)
Lemma convert_entry_counts (e : env) (output_format : pystr) (r : run)
  (entry : pystr * pystr) :
  (success_count (convert_entry e output_format r entry)
   + fail_count (convert_entry e output_format r entry)
   = S (success_count r + fail_count r))%nat.
Proof.
  unfold convert_entry.
  destruct (Base64.b64decode (snd entry)) as [p|]; [|cbn; lia].
  destruct (negb (startswith SILK_MAGIC p)); [cbn; lia|].
  destruct (bool_decide (output_format = str "silk")).
  - destruct (writable e _); cbn; lia.
  - destruct (convert_silk_to_audio _ _ _ _) as [[[duration|]|x] d];
      cbn; lia.
Qed.

Lemma convert_entries_counts (e : env) (output_format : pystr)
  (entries : list (pystr * pystr)) :
  forall r,
    (success_count (convert_entries e output_format entries r)
     + fail_count (convert_entries e output_format entries r)
     = success_count r + fail_count r + length entries)%nat.
Proof.
  unfold convert_entries.
  induction entries as [|entry entries IH]; intros r; cbn [fold_left length].
  - lia.
  - rewrite IH. pose proof (convert_entry_counts e output_format r entry).
    lia.
Qed.

(** The converter gives up without counting anything exactly when the
    file does not exist. When it runs through, every entry of the property
    list is counted once, as a success or as a failure: the two counters
    add up to the number of entries, whatever happens to single entries.
    *)
Theorem convert_plist_to_audio_counts (e : env) (w : world)
  (plist_path output_format : pystr) (d : tmpdir) :
  (convert_plist_to_audio e w plist_path output_format d = None
   <-> files w !! plist_path = None)
  /\ forall r,
       convert_plist_to_audio e w plist_path output_format d = Some (Ok r) ->
       exists plist_data,
         parses_to w plist_path plist_data
         /\ (success_count r + fail_count r = size plist_data)%nat.
Proof.
  unfold convert_plist_to_audio, path_exists, parses_to, open_rb.
  destruct (files w !! plist_path) as [f|] eqn:Hf.
  - rewrite bool_decide_eq_true_2 by eauto. cbn [negb].
    split.
    + split; [|done]. by destruct (plistlib.load (contents f)).
    + intros r. destruct (plistlib.load (contents f)) as [plist_data|x] eqn:E;
        [|done].
      intros [= <-]. exists plist_data. split; [eauto|].
      rewrite convert_entries_counts. cbn.
      by rewrite length_map_to_list.
  - rewrite bool_decide_eq_false_2 by (by intros [? ?]). cbn [negb].
    split; [done|]. done.
Qed.

(** The statement for the file of the examples: one entry, one count. *)
Lemma convert_plist_to_audio_counts_witness :
  exists plist_data,
    parses_to Examples.disk Examples.voices_plist plist_data
    /\ (1 + 0 = size plist_data)%nat.
Proof.
  refine (proj2 (convert_plist_to_audio_counts
                   {| tools_of := fun _ => Examples.ffmpeg_fails;
                      stems_of := fun _ => (7, 8);
                      writable := fun _ => true |}
                   Examples.disk Examples.voices_plist (str "silk") ∅)
            {| success_count := 1; fail_count := 0;
               out := {[ file_name
                           (sanitize_filename Examples.greeting
                              default_max_length) (str "silk")
                         := Bridge.Raw Examples.B ]};
               tmp := ∅ |} _).
  vm_compute. reflexivity.
Defined.

Lemma convert_entry_silk (e : env) (r : run) (name text : pystr) :
  (forall f, writable e f = true) ->
  let r1 := convert_entry e (str "silk") r (name, text) in
  tmp r1 = tmp r
  /\ ((is_silk_entry (name, text) = true
       /\ exists p,
            Base64.b64decode text = Some p /\ classify p = SpeechCodec
            /\ success_count r1 = S (success_count r)
            /\ fail_count r1 = fail_count r
            /\ out r1
               = <[file_name (sanitize_filename name default_max_length)
                     (str "silk") := Bridge.Raw p]> (out r))
      \/ (is_silk_entry (name, text) = false
          /\ success_count r1 = success_count r
          /\ fail_count r1 = S (fail_count r)
          /\ out r1 = out r)).
Proof.
  intros Hw. cbv zeta. unfold convert_entry, is_silk_entry, classify.
  cbn [fst snd].
  destruct (Base64.b64decode text) as [p|]; [|split; [done|by right]].
  destruct (startswith SILK_MAGIC p) eqn:Es; cbn [negb];
    [|split; [done|by right]].
  rewrite bool_decide_eq_true_2 by done. rewrite Hw.
  split; [done|]. left. split; [done|]. exists p. by rewrite Es.
Qed.

(** With the output format [silk] and output files that can be written,
    the entries counted as successes are exactly the SILK entries, and all
    others are counted as failures. Every file written holds the decoded
    bytes of a SILK entry, under the sanitised name of that entry; the
    temporary directory is not used. *)
Theorem convert_entries_silk (e : env) (entries : list (pystr * pystr)) :
  (forall f, writable e f = true) ->
  forall r,
    let r' := convert_entries e (str "silk") entries r in
    success_count r'
    = (success_count r + length (List.filter is_silk_entry entries))%nat
    /\ fail_count r'
       = (fail_count r
          + length (List.filter (fun kv => negb (is_silk_entry kv)) entries))%nat
    /\ tmp r' = tmp r
    /\ forall f c,
         out r' !! f = Some c ->
         out r !! f = Some c
         \/ exists name text p,
              In (name, text) entries
              /\ Base64.b64decode text = Some p
              /\ classify p = SpeechCodec
              /\ c = Bridge.Raw p
              /\ f = file_name (sanitize_filename name default_max_length)
                       (str "silk").
Proof.
  intros Hw. unfold convert_entries.
  induction entries as [|[name text] entries IH]; intros r.
  - cbn. split; [lia|]. split; [lia|]. split; [done|]. eauto.
  - cbn [fold_left]. cbv zeta in IH.
    destruct (IH (convert_entry e (str "silk") r (name, text)))
      as (Hs & Hf & Ht & Ho).
    destruct (convert_entry_silk e r name text Hw) as [Htmp Hcase].
    rewrite Hs, Hf, Ht, Htmp. cbn [List.filter].
    destruct Hcase as [(Hsilk & p & Hp & Hc & Hs1 & Hf1 & Ho1)
                      |(Hsilk & Hs1 & Hf1 & Ho1)];
      rewrite Hsilk, Hs1, Hf1; cbn [negb length].
    + split; [lia|]. split; [lia|]. split; [done|].
      intros f c Hfc.
      destruct (Ho f c Hfc) as [Hold|(n & t & q & Hin & Hq & Hcq & -> & ->)].
      * rewrite Ho1 in Hold.
        apply lookup_insert_Some in Hold as [[<- <-]|[_ Hold]]; [|by left].
        right. exists name, text, p. split; [by left|]. done.
      * right. exists n, t, q. split; [by right|]. done.
    + split; [lia|]. split; [lia|]. split; [done|].
      intros f c Hfc.
      destruct (Ho f c Hfc) as [Hold|(n & t & q & Hin & Hq & Hcq & -> & ->)].
      * left. by rewrite <- Ho1.
      * right. exists n, t, q. split; [by right|]. done.
Qed.

(** The statement for the entry of the examples. *)
Lemma convert_entries_silk_witness :
  success_count
    (convert_entries
       {| tools_of := fun _ => Examples.ffmpeg_fails;
          stems_of := fun _ => (7, 8); writable := fun _ => true |}
       (str "silk") [(Examples.greeting, Base64.b64encode Examples.B)]
       {| success_count := 0; fail_count := 0; out := ∅; tmp := ∅ |})
  = 1%nat.
Proof.
  refine (proj1 (convert_entries_silk
                   {| tools_of := fun _ => Examples.ffmpeg_fails;
                      stems_of := fun _ => (7, 8);
                      writable := fun _ => true |}
                   [(Examples.greeting, Base64.b64encode Examples.B)] _
                   {| success_count := 0; fail_count := 0; out := ∅;
                      tmp := ∅ |})).
  reflexivity.
Defined.



End CliFacts.

(** ** The three ways a named job ends *)

(** A job whose name is already in the dict, and whose overwrite question
    is not answered with Yes, is skipped: the entry of that name stays as
    it is, nothing is reported, and the queue goes on. *)
Theorem convert_next_overwrite_declined (u : user) (st : window)
  (file_path : pystr) (rest : list pystr) :
  convert_queue st = file_path :: rest ->
  let asked := set_convert_queue rest st in
  let name := strip (fst (input_name u asked file_path)) in
  snd (input_name u asked file_path) = true -> name <> [] ->
  is_Some (audio_data st !! name) ->
  confirm_overwrite u asked name = false ->
  convert_next u st
  = emit (skipped file_path) (convert_next u (progress_step asked))
  /\ audio_data (progress_step asked) = audio_data st
  /\ modified (progress_step asked) = modified st
  /\ messages (progress_step asked) = messages st.
Proof.
  intros Hq asked name Hok Hname Hthere Hno.
  split; [|split; [|split]].
  - unfold convert_next at 1. rewrite Hq. cbn [convert_loop].
    fold asked. rewrite Hok. fold name.
    destruct name as [|c name'] eqn:E; [done|]. cbn [truthy negb orb].
    rewrite (bool_decide_eq_true_2 _ Hthere), Hno. cbn [negb andb].
    unfold convert_next. by rewrite convert_queue_progress_step.
  - exact (audio_data_progress_step asked).
  - exact (modified_progress_step asked).
  - exact (messages_progress_step asked).
Qed.

(** The scenario of two jobs of the same name: the first one has stored
    its bitstream under [greeting]; the second one is given the same name
    and the overwrite is declined. *)
Lemma convert_next_overwrite_declined_witness :
  let u := {| input_name := fun _ _ => (Examples.greeting, true);
              confirm_overwrite := fun _ _ => false;
              encoded := fun _ _ => Some [x00];
              supported := fun _ => true |} in
  let st := set_convert_queue [str "b.mp3"] Examples.one_entry in
  get (fst (convert_next u st)) Examples.greeting = Payload Examples.B
  /\ snd (convert_next u st) = [skipped (str "b.mp3")].
Proof.
  cbv zeta.
  set (u := {| input_name := fun _ _ => (Examples.greeting, true);
               confirm_overwrite := fun _ _ => false;
               encoded := fun _ _ => Some [x00];
               supported := fun _ => true |}).
  destruct (convert_next_overwrite_declined u
              (set_convert_queue [str "b.mp3"] Examples.one_entry)
              (str "b.mp3") []) as (Hnext & _).
  - reflexivity.
  - reflexivity.
  - vm_compute. discriminate.
  - eexists. vm_compute. reflexivity.
  - reflexivity.
  - rewrite Hnext. split; vm_compute; reflexivity.
Defined.

(** A job that is named and sent to the converter, and whose conversion
    gives nothing (the converter returns [None], or an empty bitstream),
    ends with the [error] signal: the failure is reported with the name,
    the dict and the flag are as before, also when the job was to
    overwrite an entry, and the queue goes on. *)
Theorem convert_next_failed (u : user) (st : window) (file_path : pystr)
  (rest : list pystr) :
  convert_queue st = file_path :: rest ->
  let asked := set_convert_queue rest st in
  let name := strip (fst (input_name u asked file_path)) in
  let converting := showMessage (StatusConverting name) asked in
  snd (input_name u asked file_path) = true -> name <> [] ->
  audio_data st !! name = None \/ confirm_overwrite u asked name = true ->
  encoded u converting file_path = None
  \/ encoded u converting file_path = Some [] ->
  convert_next u st
  = emit (error name) (convert_next u (on_convert_error name converting))
  /\ audio_data (on_convert_error name converting) = audio_data st
  /\ modified (on_convert_error name converting) = modified st
  /\ messages (on_convert_error name converting)
     = messages st ++ [ConvertFailed name].
Proof.
  intros Hq asked name converting Hok Hname Hgo Hnone.
  split; [|split; [|split]].
  - unfold convert_next at 1. rewrite Hq. cbn [convert_loop].
    fold asked. rewrite Hok. fold name.
    destruct name as [|c name'] eqn:E; [done|]. cbn [truthy negb orb].
    assert (Hgo' : bool_decide (is_Some (audio_data asked !! (c :: name')))
                   && negb (confirm_overwrite u asked (c :: name')) = false).
    { destruct Hgo as [Hfree | ->]; [|apply andb_false_r].
      rewrite bool_decide_eq_false_2; [done|].
      cbn [audio_data asked set_convert_queue]. rewrite Hfree.
      by intros [? ?]. }
    rewrite Hgo'. fold converting.
    unfold convert_next.
    assert (Hqueue : convert_queue (on_convert_error (c :: name') converting)
                     = rest).
    { unfold on_convert_error. by rewrite convert_queue_progress_step. }
    rewrite Hqueue. by destruct Hnone as [-> | ->].
  - unfold on_convert_error. by rewrite audio_data_progress_step.
  - unfold on_convert_error. by rewrite modified_progress_step.
  - unfold on_convert_error. by rewrite messages_progress_step.
Qed.

(** The statement for a confirmed overwrite whose conversion fails: the
    entry that was to be replaced is still there. *)
Lemma convert_next_failed_witness :
  let u := {| input_name := fun _ _ => (Examples.greeting, true);
              confirm_overwrite := fun _ _ => true;
              encoded := fun _ _ => None;
              supported := fun _ => true |} in
  let st := set_convert_queue [str "b.mp3"] Examples.one_entry in
  get (fst (convert_next u st)) Examples.greeting = Payload Examples.B
  /\ snd (convert_next u st) = [error Examples.greeting].
Proof.
  cbv zeta.
  set (u := {| input_name := fun _ _ => (Examples.greeting, true);
               confirm_overwrite := fun _ _ => true;
               encoded := fun _ _ => None;
               supported := fun _ => true |}).
  destruct (convert_next_failed u
              (set_convert_queue [str "b.mp3"] Examples.one_entry)
              (str "b.mp3") []) as (Hnext & _).
  - reflexivity.
  - reflexivity.
  - vm_compute. discriminate.
  - right. reflexivity.
  - left. reflexivity.
  - rewrite Hnext. split; vm_compute; reflexivity.
Defined.

(** A job that is named and sent to the converter, and whose conversion
    gives a bitstream, ends with the [finished] signal: the bitstream can be
    read back under the name with the blanks at its ends removed, the flag
    is set, nothing is reported, and the queue goes on. *)
Theorem convert_next_finished (u : user) (st : window) (file_path : pystr)
  (rest : list pystr) (silk_data : pybytes) :
  convert_queue st = file_path :: rest ->
  let asked := set_convert_queue rest st in
  let name := strip (fst (input_name u asked file_path)) in
  let converting := showMessage (StatusConverting name) asked in
  snd (input_name u asked file_path) = true -> name <> [] ->
  audio_data st !! name = None \/ confirm_overwrite u asked name = true ->
  encoded u converting file_path = Some silk_data -> silk_data <> [] ->
  convert_next u st
  = emit (finished name silk_data)
      (convert_next u (on_convert_finished name silk_data converting))
  /\ get (on_convert_finished name silk_data converting) name
     = Payload silk_data
  /\ (forall other, other <> name ->
        get (on_convert_finished name silk_data converting) other
        = get st other)
  /\ modified (on_convert_finished name silk_data converting) = true
  /\ messages (on_convert_finished name silk_data converting) = messages st.
Proof.
  intros Hq asked name converting Hok Hname Hgo Hsome Hdata.
  split; [|split; [|split; [|split]]].
  - unfold convert_next at 1. rewrite Hq. cbn [convert_loop].
    fold asked. rewrite Hok. fold name.
    destruct name as [|c name'] eqn:E; [done|]. cbn [truthy negb orb].
    assert (Hgo' : bool_decide (is_Some (audio_data asked !! (c :: name')))
                   && negb (confirm_overwrite u asked (c :: name')) = false).
    { destruct Hgo as [Hfree | ->]; [|apply andb_false_r].
      rewrite bool_decide_eq_false_2; [done|].
      cbn [audio_data asked set_convert_queue]. rewrite Hfree.
      by intros [? ?]. }
    rewrite Hgo'. fold converting. rewrite Hsome.
    destruct silk_data as [|b silk_data']; [done|]. cbn [truthy].
    unfold convert_next.
    assert (Hqueue : convert_queue
                       (on_convert_finished (c :: name') (b :: silk_data')
                          converting) = rest).
    { unfold on_convert_finished. by rewrite convert_queue_progress_step. }
    by rewrite Hqueue.
  - unfold get, on_convert_finished. rewrite audio_data_progress_step.
    cbn [audio_data set_modified set_audio_data].
    by rewrite lookup_insert_eq, Base64Facts.b64decode_b64encode.
  - intros other Hother. unfold get, on_convert_finished.
    rewrite audio_data_progress_step.
    cbn [audio_data set_modified set_audio_data converting showMessage asked
           set_convert_queue].
    by rewrite lookup_insert_ne.
  - unfold on_convert_finished. by rewrite modified_progress_step.
  - unfold on_convert_finished. by rewrite messages_progress_step.
Qed.

(** The statement for a file that is converted and stored as [hello]. *)
Lemma convert_next_finished_witness :
  let u := {| input_name := fun _ _ => (32 :: Examples.hello, true);
              confirm_overwrite := fun _ _ => false;
              encoded := fun _ _ => Some Examples.B;
              supported := fun _ => true |} in
  let st := set_convert_queue [str "b.mp3"] Examples.one_entry in
  snd (convert_next u st) = [finished Examples.hello Examples.B].
Proof.
  cbv zeta.
  set (u := {| input_name := fun _ _ => (32 :: Examples.hello, true);
               confirm_overwrite := fun _ _ => false;
               encoded := fun _ _ => Some Examples.B;
               supported := fun _ => true |}).
  destruct (convert_next_finished u
              (set_convert_queue [str "b.mp3"] Examples.one_entry)
              (str "b.mp3") [] Examples.B) as (Hnext & _).
  - reflexivity.
  - reflexivity.
  - vm_compute. discriminate.
  - left. vm_compute. reflexivity.
  - reflexivity.
  - vm_compute. discriminate.
  - rewrite Hnext. vm_compute. reflexivity.
Defined.

(** ** Deleting entries *)

(** The loop of [del] statements runs to its end exactly when the names are
    all different and all in the dict; the dict is then the one before
    without these names. *)
Lemma del_each_spec (names : list pystr) :
  forall d : gmap pystr pystr,
    (snd (del_each names d) = true
     <-> NoDup names /\ forall n, n ∈ names -> is_Some (d !! n))
    /\ (snd (del_each names d) = true ->
        (forall k, k ∈ names -> fst (del_each names d) !! k = None)
        /\ (forall k, k ∉ names -> fst (del_each names d) !! k = d !! k)
        /\ (size (fst (del_each names d)) + length names = size d)%nat).
Proof.
  induction names as [|n rest IH]; intros d.
  - cbn. split.
    + split; [intros _|done]. split; [constructor|]. by intros n Hn%elem_of_nil.
    + intros _. split; [by intros k Hk%elem_of_nil|]. split; [done|lia].
  - cbn [del_each]. destruct (d !! n) as [v|] eqn:Hn.
    + destruct (IH (delete n d)) as [Hiff Hres]. split.
      * rewrite Hiff. split.
        -- intros [Hnd Hall]. split.
           ++ constructor; [|done]. intros Hin.
              destruct (Hall n Hin) as [? Habs].
              by rewrite lookup_delete_eq in Habs.
           ++ intros m [->|Hm]%elem_of_cons; [eauto|].
              destruct (Hall m Hm) as [x Hx].
              apply lookup_delete_Some in Hx as [_ Hx]. eauto.
        -- intros [Hnd Hall]. apply NoDup_cons in Hnd as [Hnotin Hnd].
           split; [done|]. intros m Hm.
           destruct (Hall m) as [x Hx]; [by right|].
           exists x. apply lookup_delete_Some. split; [|done].
           by intros ->.
      * intros Hok. destruct (Hres Hok) as (Hgone & Hkept & Hsize).
        apply Hiff in Hok as [_ Hall].
        split; [|split].
        -- intros k Hk. apply elem_of_cons in Hk as [Hk|Hk];
             [subst k|by apply Hgone].
           destruct (decide (n ∈ rest)) as [Hin|Hout]; [by apply Hgone|].
           by rewrite Hkept, lookup_delete_eq.
        -- intros k Hk. apply not_elem_of_cons in Hk as [Hne Hk].
           by rewrite Hkept, lookup_delete_ne.
        -- cbn [length]. rewrite map_size_delete_Some in Hsize by eauto.
           assert (size d <> 0%nat).
           { intros E. apply map_size_empty_inv in E. by rewrite E in Hn. }
           lia.
    + cbn. split; [|done]. split; [done|].
      intros [_ Hall]. destruct (Hall n) as [x Hx]; [by left|congruence].
Qed.

(** Deleting a selection of names that are all in the dict (each selected
    once), once the question is answered with Yes: every selected name is
    gone, every other name reads as before, the dict is smaller by the
    number of selected names, and the flag is set. *)
Theorem delete_selected_removes (names : list pystr) (st : window) :
  names <> [] -> NoDup names ->
  (forall n, n ∈ names -> is_Some (audio_data st !! n)) ->
  let st' := fst (delete_selected names true st) in
  snd (delete_selected names true st) = None
  /\ (forall n, n ∈ names -> get st' n = NotFound)
  /\ (forall k, k ∉ names -> get st' k = get st k)
  /\ (size (audio_data st') + length names = size (audio_data st))%nat
  /\ modified st' = true.
Proof.
  intros Hne Hnd Hall. cbv zeta. unfold delete_selected.
  destruct names as [|n rest]; [done|].
  destruct (del_each_spec (n :: rest) (audio_data st)) as [Hiff Hres].
  assert (Hok : snd (del_each (n :: rest) (audio_data st)) = true)
    by (by apply Hiff).
  destruct (Hres Hok) as (Hgone & Hkept & Hsize).
  destruct (del_each (n :: rest) (audio_data st)) as [d ok].
  cbn [snd fst] in *. subst ok. cbn [fst snd].
  unfold get. cbn [audio_data showMessage set_modified set_audio_data modified].
  split; [done|]. split; [|split; [|done]].
  - intros k Hk. by rewrite Hgone.
  - intros k Hk. by rewrite Hkept.
Qed.

(** The statement for the one entry of the example store. *)
Lemma delete_selected_removes_witness :
  get (fst (delete_selected [Examples.greeting] true Examples.one_entry))
    Examples.greeting = NotFound.
Proof.
  refine (proj1 (proj2 (delete_selected_removes [Examples.greeting]
                          Examples.one_entry _ _ _)) Examples.greeting _).
  - discriminate.
  - apply NoDup_singleton.
  - intros n Hn%list_elem_of_singleton. subst n.
    eexists. vm_compute. reflexivity.
  - by apply list_elem_of_singleton.
Defined.

(** Deleting with a name that the dict does not hold, or with a name
    selected twice, raises [KeyError] at that name: the names before it are
    gone from the dict, and the flag is as it was. *)
Theorem delete_selected_key_error (names : list pystr) (st : window) :
  names <> [] ->
  ~ (NoDup names /\ forall n, n ∈ names -> is_Some (audio_data st !! n)) ->
  snd (delete_selected names true st) = Some KeyError
  /\ modified (fst (delete_selected names true st)) = modified st
  /\ audio_data (fst (delete_selected names true st)) ⊆ audio_data st.
Proof.
  intros Hne Hbad. unfold delete_selected.
  destruct names as [|n rest]; [done|].
  destruct (del_each_spec (n :: rest) (audio_data st)) as [Hiff _].
  assert (Hsub : forall (l : list pystr) (d : gmap pystr pystr),
             fst (del_each l d) ⊆ d).
  { induction l as [|m l IH]; intros d; [done|].
    cbn [del_each]. destruct (d !! m); [|done].
    etrans; [apply IH|]. apply delete_subseteq. }
  pose proof (Hsub (n :: rest) (audio_data st)) as Hsub'.
  destruct (del_each (n :: rest) (audio_data st)) as [d [|]].
  - destruct Hbad. by apply Hiff.
  - done.
Qed.

(** The statement for a name that is not in the example store. *)
Lemma delete_selected_key_error_witness :
  snd (delete_selected [Examples.hello] true Examples.one_entry)
  = Some KeyError.
Proof.
  refine (proj1 (delete_selected_key_error [Examples.hello]
                   Examples.one_entry _ _)).
  - discriminate.
  - intros [_ H]. destruct (H Examples.hello) as [x Hx].
    + by apply list_elem_of_singleton.
    + vm_compute in Hx. discriminate.
Defined.

(** ** Renaming keeps the other entries and their number *)

(** A rename that goes through (a new name that is not empty, differs from
    the old one and is free) changes the set of names by taking the old
    name out and putting the new one in; the number of entries is the
    same. *)
Theorem rename_selected_names (st : window) (old_name new_name : pystr) :
  is_Some (audio_data st !! old_name) ->
  new_name <> [] -> new_name <> old_name ->
  audio_data st !! new_name = None ->
  let st' := fst (rename_selected (Some old_name) new_name true st) in
  dom (audio_data st') = {[new_name]} ∪ (dom (audio_data st) ∖ {[old_name]})
  /\ size (audio_data st') = size (audio_data st).
Proof.
  intros [text Hold] Hne Hdiff Hfree. cbv zeta. unfold rename_selected.
  destruct new_name as [|c new_name]; [done|]. cbn [truthy andb].
  rewrite bool_decide_eq_false_2 by done. cbn [negb].
  rewrite bool_decide_eq_false_2 by (rewrite Hfree; by intros [? ?]).
  rewrite Hold. cbn [fst audio_data set_modified set_audio_data].
  split.
  - by rewrite dom_insert_L, dom_delete_L.
  - rewrite map_size_insert_None
      by (rewrite lookup_delete_ne by done; exact Hfree).
    rewrite map_size_delete_Some by eauto.
    assert (size (audio_data st) <> 0%nat).
    { intros E. apply map_size_empty_inv in E. by rewrite E in Hold. }
    lia.
Qed.

(** The statement for the rename of the scenario. *)
Lemma rename_selected_names_witness :
  size (audio_data (fst (rename_selected (Some Examples.greeting)
                           Examples.hello true Examples.one_entry)))
  = size (audio_data Examples.one_entry).
Proof.
  refine (proj2 (rename_selected_names Examples.one_entry Examples.greeting
                   Examples.hello _ _ _ _)).
  - eexists. vm_compute. reflexivity.
  - vm_compute. discriminate.
  - vm_compute. discriminate.
  - vm_compute. reflexivity.
Defined.

(** ** What saving leaves alone *)

Lemma chmod_other (w w' : world) (path other : pystr) (mode : Z) :
  chmod w path mode = Ok w' -> other <> path ->
  files w' !! other = files w !! other /\ refused w' = refused w.
Proof.
  unfold chmod. destruct (files w !! path); [|done].
  destruct (refused w path); [done|]. intros [= <-] Hne.
  cbn. by rewrite lookup_insert_ne.
Qed.

Lemma open_wb_other (w w' : world) (path other : pystr) :
  open_wb w path = Ok w' -> other <> path ->
  files w' !! other = files w !! other /\ refused w' = refused w.
Proof.
  unfold open_wb. destruct (refused w path); [done|].
  destruct (files w !! path) as [f|].
  - destruct (Z.land (st_mode f) 128 =? 0)%Z; [done|].
    intros [= <-] Hne. cbn. by rewrite lookup_insert_ne.
  - intros [= <-] Hne. cbn. by rewrite lookup_insert_ne.
Qed.

Lemma write_all_other (w : world) (path other : pystr)
  (doc : plistlib.document) :
  other <> path -> files (write_all w path doc) !! other = files w !! other.
Proof.
  intros Hne. unfold write_all. destruct (files w !! path); [|done].
  cbn. by rewrite lookup_insert_ne.
Qed.

Lemma save_plist_to_other (w : world) (path other : pystr) (st : window) :
  other <> path ->
  files (fst (save_plist_to w path st)) !! other = files w !! other
  /\ audio_data (snd (save_plist_to w path st)) = audio_data st
  /\ plist_path (snd (save_plist_to w path st)) = plist_path st.
Proof.
  intros Hne. unfold save_plist_to.
  destruct (match files w !! path with
            | Some f => _
            | None => Ok w
            end) as [w1|e] eqn:E1.
  2:{ by destruct e. }
  assert (H1 : files w1 !! other = files w !! other).
  { destruct (files w !! path) as [f|]; [|by injection E1 as <-].
    destruct (Z.land (st_mode f) 128 =? 0)%Z; [|by injection E1 as <-].
    by apply (chmod_other w w1 path other _ E1). }
  destruct (open_wb w1 path) as [w2|e] eqn:E2.
  2:{ by destruct e. }
  assert (H2 : files w2 !! other = files w !! other).
  { rewrite <- H1. by apply (open_wb_other w1 w2 path other E2). }
  destruct (plistlib.dump (audio_data st)) as [doc|e].
  2:{ destruct e; cbn [fst snd]; by rewrite write_all_other. }
  cbn [fst snd]. by rewrite write_all_other.
Qed.

(** Whatever happens in [save_plist], the dict in memory is as before, and
    so is every file other than the one the store is saved to. *)
Theorem save_plist_touches_one_file (w : world) (chosen : pystr)
  (st : window) :
  audio_data (snd (save_plist w chosen st)) = audio_data st
  /\ forall other,
       plist_path (snd (save_plist w chosen st)) <> Some other ->
       files (fst (save_plist w chosen st)) !! other = files w !! other.
Proof.
  unfold save_plist.
  assert (Hto : forall path st0,
             plist_path st0 = Some path ->
             audio_data st0 = audio_data st ->
             audio_data (snd (save_plist_to w path st0)) = audio_data st
             /\ forall other,
                  plist_path (snd (save_plist_to w path st0)) <> Some other ->
                  files (fst (save_plist_to w path st0)) !! other
                  = files w !! other).
  { intros path st0 Hp Hd. split.
    - destruct (decide (path = [])) as [->|Hne].
      + by destruct (save_plist_to_other w [] [0] st0) as (_ & -> & _).
      + by destruct (save_plist_to_other w path [] st0) as (_ & -> & _).
    - intros other Hother.
      assert (other <> path).
      { intros ->. apply Hother.
        destruct (decide (path = [])) as [->|Hne].
        + by destruct (save_plist_to_other w [] [0] st0) as (_ & _ & ->).
        + by destruct (save_plist_to_other w path [] st0) as (_ & _ & ->). }
      by apply save_plist_to_other. }
  destruct (plist_path st) as [path|] eqn:Hp.
  - destruct (truthy path); [by apply Hto|].
    destruct (truthy chosen); [|done].
    by apply (Hto chosen (set_plist_path (Some chosen) st)).
  - destruct (truthy chosen); [|done].
    by apply (Hto chosen (set_plist_path (Some chosen) st)).
Qed.

(** ** A save that fails while writing *)

(** [save_plist] opens the file for writing before it serialises the dict.
    When the file can be opened and [plistlib.dump] then raises, the file
    on disk holds a document that is cut off: the dict and the flag in
    memory are as before, but loading the file again, into any window,
    fails with the error of the XML parser. *)
Theorem save_plist_dump_fails (w : world) (st : window)
  (path chosen : pystr) (e : exn) :
  plist_path st = Some path -> path <> [] ->
  refused w path = false ->
  plistlib.dump (audio_data st) = Raise e ->
  let saved := save_plist w chosen st in
  audio_data (snd saved) = audio_data st
  /\ modified (snd saved) = modified st
  /\ open_rb (fst saved) path = Ok (Some plistlib.Truncated)
  /\ forall other,
       load_plist (fst saved) path other
       = message_box (LoadFailed ExpatError) other.
Proof.
  intros Hpath Hne Href Hdump. cbv zeta.
  assert (Hsave : save_plist w chosen st = save_plist_to w path st).
  { unfold save_plist. rewrite Hpath. by destruct path. }
  rewrite Hsave. clear Hsave. unfold save_plist_to.
  assert (Hopen : forall w1,
             refused w1 path = false ->
             (forall f, files w1 !! path = Some f ->
                        (Z.land (st_mode f) 128 =? 0)%Z = false) ->
             exists w2 f,
               open_wb w1 path = Ok w2 /\ files w2 !! path = Some f).
  { intros w1 Hr Hbit. unfold open_wb. rewrite Hr.
    destruct (files w1 !! path) as [f|] eqn:Hf.
    - rewrite (Hbit f eq_refl). eexists _, _. split; [done|].
      cbn. by rewrite lookup_insert_eq.
    - eexists _, _. split; [done|]. cbn. by rewrite lookup_insert_eq. }
  assert (Hfinish : forall w2 f,
             files w2 !! path = Some f ->
             let r := match plistlib.dump (audio_data st) with
                      | Ok doc =>
                          (write_all w2 path doc,
                           showMessage StatusSaved (set_modified false st))
                      | Raise PermissionError =>
                          (write_all w2 path plistlib.Truncated,
                           message_box SaveNoPermission st)
                      | Raise e0 =>
                          (write_all w2 path plistlib.Truncated,
                           message_box (SaveFailed e0) st)
                      end in
             audio_data (snd r) = audio_data st
             /\ modified (snd r) = modified st
             /\ open_rb (fst r) path = Ok (Some plistlib.Truncated)
             /\ forall other,
                  load_plist (fst r) path other
                  = message_box (LoadFailed ExpatError) other).
  { intros w2 f Hf. cbv zeta. rewrite Hdump.
    assert (Hread : open_rb (write_all w2 path plistlib.Truncated) path
                    = Ok (Some plistlib.Truncated)).
    { unfold open_rb, write_all. rewrite Hf. cbn [files with_files].
      by rewrite lookup_insert_eq. }
    assert (Hload : forall other,
               load_plist (write_all w2 path plistlib.Truncated) path other
               = message_box (LoadFailed ExpatError) other).
    { intros other. unfold load_plist. by rewrite Hread. }
    by destruct e. }
  destruct (files w !! path) as [f|] eqn:Hf.
  - destruct (Z.land (st_mode f) 128 =? 0)%Z eqn:Hbit.
    + unfold chmod. rewrite Hf, Href.
      destruct (Hopen (with_files
                         (<[path := {| st_mode := Z.lor (st_mode f) 128;
                                       contents := contents f |}]> (files w))
                         w)) as (w2 & f2 & -> & Hf2).
      * done.
      * intros f0. cbn. rewrite lookup_insert_eq. intros [= <-]. cbn.
        apply Z.eqb_neq. apply Z.eqb_eq in Hbit.
        rewrite Z.land_lor_distr_l, Hbit. by rewrite Z.land_diag.
      * by apply (Hfinish w2 f2).
    + destruct (Hopen w) as (w2 & f2 & -> & Hf2).
      * done.
      * intros f0 Hf0. congruence.
      * by apply (Hfinish w2 f2).
  - destruct (Hopen w) as (w2 & f2 & -> & Hf2).
    + done.
    + intros f0 Hf0. congruence.
    + by apply (Hfinish w2 f2).
Qed.

(** The statement for a store with a control character in a name, saved
    over the file that held the store before. *)
Lemma save_plist_dump_fails_witness :
  let saved := save_plist Examples.disk [] MoreExamples.control_char_entry in
  load_plist (fst saved) Examples.voices_plist Examples.fresh
  = message_box (LoadFailed ExpatError) Examples.fresh.
Proof.
  cbv zeta.
  refine (proj2 (proj2 (proj2
            (save_plist_dump_fails Examples.disk
               MoreExamples.control_char_entry Examples.voices_plist []
               ValueError _ _ _ _))) Examples.fresh).
  - reflexivity.
  - vm_compute. discriminate.
  - reflexivity.
  - vm_compute. reflexivity.
Defined.

(** ** Closing the window *)




Lemma save_plist_to_refused (w : world) (path : pystr) (f : file)
  (st : window) :
  files w !! path = Some f -> Z.land (st_mode f) 128 = 0%Z ->
  refused w path = true ->
  save_plist_to w path st = (w, message_box SaveNoPermission st).
Proof.
  intros Hf Hmode Href. unfold save_plist_to. rewrite Hf.
  apply Z.eqb_eq in Hmode. rewrite Hmode.
  unfold chmod. by rewrite Hf, Href.
Qed.

(** Choosing Save when closing does not make the close wait for the save:
    when the file is read-only and cannot be made writable, the error is
    shown and the window closes all the same, with the changes neither on
    disk nor marked as saved. *)
Theorem closeEvent_save_fails `{Countable T} (w : world) (chosen : pystr)
  (temp_files : list T) (dir : gset T) (st : window) (path : pystr)
  (f : file) :
  modified st = true ->
  plist_path st = Some path -> path <> [] ->
  files w !! path = Some f -> Z.land (st_mode f) 128 = 0%Z ->
  refused w path = true ->
  closeEvent w ReplySave chosen temp_files dir st
  = (w, message_box SaveNoPermission st, unlink_all temp_files dir, true).
Proof.
  intros Hm Hp Hne Hf Hmode Href. unfold closeEvent. rewrite Hm.
  unfold save_plist. rewrite Hp.
  destruct path as [|c path]; [done|]. cbn [truthy].
  by rewrite (save_plist_to_refused w (c :: path) f st Hf Hmode Href).
Qed.

(** The statement for the read-only file of the examples. *)
Lemma closeEvent_save_fails_witness :
  snd (closeEvent Examples.locked_disk ReplySave [] MoreExamples.played
         MoreExamples.temp_dir Examples.one_entry_changed) = true
  /\ modified (snd (fst (fst
       (closeEvent Examples.locked_disk ReplySave [] MoreExamples.played
          MoreExamples.temp_dir Examples.one_entry_changed)))) = true.
Proof.
  rewrite (closeEvent_save_fails Examples.locked_disk []
             MoreExamples.played MoreExamples.temp_dir
             Examples.one_entry_changed Examples.voices_plist
             {| st_mode := 292;
                contents :=
                  Some (plistlib.Complete
                          [(Examples.greeting,
                            Base64.b64encode Examples.B)]) |}).
  - split; reflexivity.
  - reflexivity.
  - reflexivity.
  - vm_compute. discriminate.
  - vm_compute. reflexivity.
  - reflexivity.
  - reflexivity.
Defined.

(** ** More on file names *)

Lemma head_rev_last (s : pystr) : head (rev s) = last s.
Proof. rewrite <- (rev_involutive s) at 2. by rewrite last_rev_head. Qed.

(** Text without blanks at its ends is left as it is by [strip]. *)
Lemma strip_stripped (s : pystr) :
  (forall c, head s = Some c -> isspace c = false) ->
  (forall c, last s = Some c -> isspace c = false) ->
  strip s = s.
Proof.
  intros Hhead Hlast.
  assert (Hl : forall t : pystr,
             (forall c, head t = Some c -> isspace c = false) -> lstrip t = t).
  { intros [|c t] Ht; [done|]. cbn [lstrip]. by rewrite (Ht c). }
  unfold strip, rstrip. rewrite (Hl s Hhead).
  rewrite Hl; [apply rev_involutive|].
  intros c. rewrite head_rev_last. apply Hlast.
Qed.

Lemma remove_illegal_legal (s : pystr) :
  Forall (fun c => mem_N c illegal_chars = false) s -> remove_illegal s = s.
Proof.
  unfold remove_illegal. induction 1 as [|c s Hc _ IH]; [done|].
  cbn [List.filter]. by rewrite Hc, IH.
Qed.

(** What [sanitize_filename] returns, for any bound that is not negative.
    *)
Lemma sanitize_filename_shape (name : pystr) (max_length : Z) :
  (0 <= max_length)%Z ->
  let safe_name := sanitize_filename name max_length in
  Forall (fun c => mem_N c illegal_chars = false) safe_name
  /\ (Z.of_nat (length safe_name) <= Z.max max_length 7)%Z
  /\ (forall c, head safe_name = Some c -> isspace c = false)
  /\ (forall c, last safe_name = Some c -> isspace c = false)
  /\ safe_name <> [].
Proof.
  intros Hmax. cbv zeta. unfold sanitize_filename.
  set (cleaned := remove_illegal name).
  set (cut := if (max_length <? Z.of_nat (length cleaned))%Z
              then slice_to max_length cleaned else cleaned).
  assert (Hcut_chars : Forall (fun c => mem_N c illegal_chars = false) cut).
  { subst cut. destruct (_ <? _)%Z;
      [apply slice_to_Forall|]; apply remove_illegal_Forall. }
  assert (Hcut_len : (Z.of_nat (length cut) <= max_length)%Z).
  { subst cut. destruct (_ <? _)%Z eqn:E.
    - by apply slice_to_length.
    - by apply Z.ltb_ge in E. }
  destruct (truthy (strip cut)) eqn:Hne.
  - split; [by apply strip_Forall|].
    split; [pose proof (strip_length cut); lia|].
    split; [intros c H; apply (strip_ends cut); by left|].
    split; [intros c H; apply (strip_ends cut); by right|].
    intros E. by rewrite E in Hne.
  - change (str "unnamed") with [117; 110; 110; 97; 109; 101; 100].
    split; [repeat constructor|]. split; [cbn; lia|].
    split; [by intros c [= <-]|]. split; [by intros c [= <-]|]. done.
Qed.

(** Sanitising a sanitised name changes nothing, for every bound that
    leaves room for the stand-in name of seven characters. *)
Theorem sanitize_filename_idempotent (name : pystr) (max_length : Z) :
  (7 <= max_length)%Z ->
  sanitize_filename (sanitize_filename name max_length) max_length
  = sanitize_filename name max_length.
Proof.
  intros Hmax.
  destruct (sanitize_filename_shape name max_length)
    as (Hchars & Hlen & Hhead & Hlast & Hne); [lia|].
  set (safe_name := sanitize_filename name max_length) in *.
  unfold sanitize_filename at 1.
  rewrite (remove_illegal_legal safe_name Hchars).
  assert (Hfit : (max_length <? Z.of_nat (length safe_name))%Z = false)
    by (apply Z.ltb_ge; lia).
  rewrite Hfit, (strip_stripped safe_name Hhead Hlast).
  by destruct safe_name.
Qed.

(** The statement for the default bound and a name that needs cleaning. *)
Lemma sanitize_filename_idempotent_witness :
  sanitize_filename (sanitize_filename (str " a/b ") 50) 50
  = sanitize_filename (str " a/b ") 50.
Proof. apply sanitize_filename_idempotent. lia. Defined.

(** The characters that are not allowed in a file name play no part in
    the result: a name with such a character put in anywhere gets the same
    file name as the name without it. Entries whose names differ in these
    characters only are exported under one file name. *)
Theorem sanitize_filename_ignores_illegal (before after : pystr) (c : N)
  (max_length : Z) :
  mem_N c illegal_chars = true ->
  sanitize_filename (before ++ c :: after) max_length
  = sanitize_filename (before ++ after) max_length.
Proof.
  intros Hc. unfold sanitize_filename.
  assert (E : remove_illegal (before ++ c :: after)
              = remove_illegal (before ++ after)).
  { unfold remove_illegal. rewrite !List.filter_app. cbn [List.filter].
    by rewrite Hc. }
  by rewrite E.
Qed.

(** The statement for a slash in the middle of a name. *)
Lemma sanitize_filename_ignores_illegal_witness :
  sanitize_filename (str "a/b") 50 = sanitize_filename (str "ab") 50.
Proof.
  apply (sanitize_filename_ignores_illegal (str "a") (str "b") 47 50).
  reflexivity.
Defined.

(** The file name that the window makes of an entry name has none of the
    characters that are not allowed and at most 50 characters; it is the
    name without these characters when that is short enough. Unlike
    [sanitize_filename] the window keeps blanks at the ends and puts
    nothing in place of an empty result: [sanitize_filename] returns this
    name with the blanks at its ends removed, or [unnamed] when nothing
    is left. A name made of such characters only gives the empty file
    name. *)
Theorem export_safe_name_spec (name : pystr) :
  Forall (fun c => mem_N c illegal_chars = false) (export_safe_name name)
  /\ (length (export_safe_name name) <= 50)%nat
  /\ ((length (remove_illegal name) <= 50)%nat ->
      export_safe_name name = remove_illegal name)
  /\ sanitize_filename name default_max_length
     = (if truthy (strip (export_safe_name name))
        then strip (export_safe_name name) else str "unnamed")
  /\ (forallb (fun c => mem_N c illegal_chars) name = true ->
      export_safe_name name = []).
Proof.
  unfold export_safe_name.
  assert (Hall : forallb (fun c => mem_N c illegal_chars) name = true ->
                 remove_illegal name = []).
  { unfold remove_illegal. induction name as [|c name IH]; [done|].
    cbn [forallb List.filter]. intros H. apply andb_prop in H as [-> H].
    by apply IH. }
  assert (Hfit : (length (remove_illegal name) <= 50)%nat ->
                 slice_to 50 (remove_illegal name) = remove_illegal name).
  { intros H. unfold slice_to. cbn. by apply firstn_all2. }
  split; [apply slice_to_Forall, remove_illegal_Forall|].
  split; [pose proof (slice_to_length 50 (remove_illegal name)); lia|].
  split; [exact Hfit|]. split; [|by intros ->%Hall].
  unfold sanitize_filename, default_max_length.
  destruct (50 <? Z.of_nat (length (remove_illegal name)))%Z eqn:E; [done|].
  apply Z.ltb_ge in E. rewrite Hfit by lia. done.
Qed.

(** ** More on base64 *)
Module Base64More.
Import Base64 Sextets Base64Facts.

(** The text of [n] bytes has four characters for every three bytes, the
    last group filled up: [4 * ceil(n / 3)] characters. *)
Theorem b64encode_length (data : pybytes) :
  length (b64encode data) = (4 * ((length data + 2) / 3))%nat.
Proof.
  unfold b64encode.
  assert (H : forall data : pybytes,
             length (b2a_base64 data) = (4 * ((length data + 2) / 3))%nat
             /\ (forall a,
                   length (b2a_base64 (a :: data))
                   = (4 * ((length (a :: data) + 2) / 3))%nat)
             /\ (forall a b,
                   length (b2a_base64 (a :: b :: data))
                   = (4 * ((length (a :: b :: data) + 2) / 3))%nat)).
  { clear data. induction data as [|c data (IH0 & IH1 & IH2)].
    - split; [|split]; intros; reflexivity.
    - split; [|split]; intros.
      + apply IH1.
      + apply IH2.
      + change (b2a_base64 (a :: b :: c :: data))
          with (b2a (sextet0 (ord a)) :: b2a (sextet1 (ord a) (ord b))
                :: b2a (sextet2 (ord b) (ord c)) :: b2a (sextet3 (ord c))
                :: b2a_base64 data).
        cbn [length]. rewrite IH0.
        replace (S (S (S (length data))) + 2)%nat
          with (length data + 2 + 1 * 3)%nat by lia.
        rewrite Nat.div_add by lia. lia. }
  apply H.
Qed.

Lemma b2a_verbatim (i : N) : i < 64 -> verbatim_char (b2a i) = true.
Proof.
  intros Hi.
  assert (H : all_below 64 (fun i => verbatim_char (b2a i)) = true)
    by (vm_compute; reflexivity).
  exact (all_below_spec 64 _ H i Hi).
Qed.

(** The text of a payload is text that the property list keeps as it is.
    *)
Lemma b64encode_verbatim (data : pybytes) : verbatim (b64encode data) = true.
Proof.
  unfold b64encode, verbatim.
  assert (H : forall data : pybytes,
             forallb verbatim_char (b2a_base64 data) = true
             /\ (forall a,
                   forallb verbatim_char (b2a_base64 (a :: data)) = true)
             /\ (forall a b,
                   forallb verbatim_char (b2a_base64 (a :: b :: data))
                   = true)).
  { clear data. induction data as [|c data (IH0 & IH1 & IH2)].
    - split; [|split]; intros.
      + reflexivity.
      + byte_facts a x00. cbn [b2a_base64 forallb].
        rewrite sextet1_last.
        change (N.shiftr (ord a) 2) with (sextet0 (ord a)).
        by rewrite !b2a_verbatim by assumption.
      + byte_facts a b. byte_facts b x00. cbn [b2a_base64 forallb].
        rewrite sextet2_last.
        change (N.shiftr (ord a) 2) with (sextet0 (ord a)).
        change (N.lor (N.shiftl (N.land (ord a) 3) 4) (N.shiftr (ord b) 4))
          with (sextet1 (ord a) (ord b)).
        by rewrite !b2a_verbatim by assumption.
    - split; [|split]; intros.
      + apply IH1.
      + apply IH2.
      + byte_facts a b. byte_facts b c. byte_facts c c.
        change (b2a_base64 (a :: b :: c :: data))
          with (b2a (sextet0 (ord a)) :: b2a (sextet1 (ord a) (ord b))
                :: b2a (sextet2 (ord b) (ord c)) :: b2a (sextet3 (ord c))
                :: b2a_base64 data).
        cbn [forallb]. by rewrite !b2a_verbatim, IH0 by assumption. }
  apply H.
Qed.

End Base64More.

(** ** Converted entries and the property list *)

(** Storing a conversion result under a name of verbatim text keeps a
    store storable: the base64 text of the bitstream is verbatim text,
    whatever the bitstream, so the entry survives saving and loading. *)
Theorem on_convert_finished_storable (name : pystr) (silk_data : pybytes)
  (st : window) :
  storable (audio_data st) = true -> verbatim name = true ->
  storable (audio_data (on_convert_finished name silk_data st)) = true.
Proof.
  rewrite !storable_spec. intros Hst Hname k v.
  unfold on_convert_finished. rewrite audio_data_progress_step.
  cbn [audio_data set_modified set_audio_data].
  intros [[<- <-]|[_ Hkv]]%lookup_insert_Some.
  - split; [done|apply Base64More.b64encode_verbatim].
  - by apply Hst.
Qed.

(** The statement for the example store and a second entry. *)
Lemma on_convert_finished_storable_witness :
  storable (audio_data (on_convert_finished Examples.hello Examples.B
                          Examples.one_entry)) = true.
Proof.
  apply on_convert_finished_storable; vm_compute; reflexivity.
Defined.
